(** * chat-ai-server: the authenticated streaming chat pipeline

    A shallow embedding of the FastAPI backend under [app/]:

    - [app/models]   : the pydantic records ([UserInDB], [ChatMessage], ...);
    - [app/dao]      : [UserDAO], a dictionary used as the user table;
    - [app/utils]    : [create_access_token] and [decode_token];
    - [app/routers]  : the auth guard, the chat endpoint, the streaming
                       generator and the history endpoints.

    Python dictionaries are finite maps, exceptions are values of [exn],
    and the module-level mutable state ([fake_users_db], [chatHistory]) is
    threaded through a small state-and-exception monad that also records,
    in order, the observable effects of a request (upstream calls, appends
    to the conversation log, server-sent events). *)

From Stdlib Require Import ZArith QArith.
From stdpp Require Import gmap strings list fin_maps pretty.

Close Scope Q_scope.
Open Scope string_scope.
Open Scope list_scope.
Open Scope Z_scope.
Open Scope stdpp_scope.

(* ===================================================================== *)
(** * Python values                                                       *)
(* ===================================================================== *)

(** [bool(s)] for a [str]: only the empty string is falsy. *)
Definition truthy (s : string) : bool := negb (String.eqb s "").

(** [bool(x)] for an [Optional[str]]. *)
Definition truthy_opt (x : option string) : bool :=
  match x with
  | Some s => truthy s
  | None => false
  end.

(** [bool(x)] for an [Optional[bool]]. *)
Definition truthy_flag (x : option bool) : bool :=
  match x with
  | Some b => b
  | None => false
  end.

(** [bool(x)] for an optional list: [None] and [[]] are falsy. *)
Definition truthy_list {A} (x : option (list A)) : bool :=
  match x with
  | Some (_ :: _) => true
  | _ => false
  end.

(** Exceptions raised by the modelled code. [HTTPException] is FastAPI's,
    [PyJWTError] is the base class of every error of the [jwt] package and
    [APIError] stands for whatever the OpenAI client raises. *)
Inductive jwt_error :=
| ExpiredSignatureError
| InvalidSignatureError
| InvalidAlgorithmError
| DecodeError.

Inductive exn :=
| HTTPException (status_code : Z) (detail : string)
| KeyError (key : string)
| IndexError
| AttributeError (cls attr : string)
| ValidationError (field : string)
| PyJWTError (e : jwt_error)
| APIError (message : string).

Definition jwt_error_str (e : jwt_error) : string :=
  match e with
  | ExpiredSignatureError => "Signature has expired"
  | InvalidSignatureError => "Signature verification failed"
  | InvalidAlgorithmError => "The specified alg value is not allowed"
  | DecodeError => "Not enough segments"
  end.

(** [repr(s)] for a [str]. The string is put between single quotes, or
    between double quotes when it holds a single quote and no double one;
    the chosen quote and the backslash are escaped with a backslash, tab,
    newline and carriage return are written with their letter, and the
    other control characters as [\x] and two hexadecimal digits. The
    bytes of a character outside ASCII are kept as they are, which is
    what [repr] does for printable characters. *)
Definition single_quote : Ascii.ascii := Ascii.ascii_of_nat 39.
Definition double_quote : Ascii.ascii := Ascii.ascii_of_nat 34.
Definition backslash : Ascii.ascii := Ascii.ascii_of_nat 92.

Fixpoint contains (c : Ascii.ascii) (s : string) : bool :=
  match s with
  | EmptyString => false
  | String a rest => Ascii.eqb a c || contains c rest
  end.

Definition hex_digit (n : nat) : Ascii.ascii :=
  default (Ascii.ascii_of_nat 48) (String.get n "0123456789abcdef").

Definition escape (quote c : Ascii.ascii) : string :=
  let n := Ascii.nat_of_ascii c in
  if Ascii.eqb c quote || Ascii.eqb c backslash
  then String backslash (String c "")
  else if Nat.eqb n 9 then "\t"
  else if Nat.eqb n 10 then "\n"
  else if Nat.eqb n 13 then "\r"
  else if Nat.ltb n 32 || Nat.eqb n 127
  then "\x" +:+ String (hex_digit (Nat.div n 16))
                  (String (hex_digit (Nat.modulo n 16)) "")
  else String c "".

Fixpoint escape_all (quote : Ascii.ascii) (s : string) : string :=
  match s with
  | EmptyString => ""
  | String c rest => escape quote c +:+ escape_all quote rest
  end.

Definition repr (s : string) : string :=
  let quote :=
    if contains single_quote s && negb (contains double_quote s)
    then double_quote else single_quote in
  String quote (escape_all quote s +:+ String quote "").

(** Strings made of ASCII characters only. *)
Fixpoint only_ascii (s : string) : bool :=
  match s with
  | EmptyString => true
  | String c rest => Nat.ltb (Ascii.nat_of_ascii c) 128 && only_ascii rest
  end.

(** [str(e)]. A [KeyError] prints the [repr] of its key. *)
Definition str (e : exn) : string :=
  match e with
  | HTTPException status_code detail => pretty status_code +:+ ": " +:+ detail
  | KeyError key => repr key
  | IndexError => "list index out of range"
  | AttributeError cls attr =>
      "'" +:+ cls +:+ "' object has no attribute '" +:+ attr +:+ "'"
  | ValidationError field => "1 validation error for " +:+ field
  | PyJWTError e => jwt_error_str e
  | APIError message => message
  end.

(** Points in time are POSIX microseconds, the resolution of a
    [datetime]. *)
Definition time := Z.

(* ===================================================================== *)
(** * app/models/user_model.py                                            *)
(* ===================================================================== *)

(** [User] and its subclass [UserInDB]. Every parameter annotated [User]
    in the routers receives the [UserInDB] object built by [get_user], so
    one record serves both. *)
Module UserInDB.
Record t := mk {
  username : string;
  email : option string;
  full_name : option string;
  disabled : option bool;
  hashed_password : string
}.

Definition set_username (v : string) (u : t) : t :=
  mk v (email u) (full_name u) (disabled u) (hashed_password u).
Definition set_email (v : option string) (u : t) : t :=
  mk (username u) v (full_name u) (disabled u) (hashed_password u).
Definition set_full_name (v : option string) (u : t) : t :=
  mk (username u) (email u) v (disabled u) (hashed_password u).
Definition set_disabled (v : option bool) (u : t) : t :=
  mk (username u) (email u) (full_name u) v (hashed_password u).
End UserInDB.

Module UserUpdate.
Record t := mk {
  email : option string;
  full_name : option string
}.
End UserUpdate.

(* ===================================================================== *)
(** * app/models/chat_model.py and app/configs/dash_scope.py              *)
(* ===================================================================== *)

(** [DashScopeConfig]: the attributes the class defines. It has no
    attribute called [MODEL_NAME]. *)
Module DashScopeConfig.
Definition model_name : string := "qwen3-max".
Definition max_tokens : Z := 2000.
Definition temperature : Q := (7 # 10)%Q.

(** [config.MODEL_NAME], as the routers spell it. *)
Definition MODEL_NAME : exn + string :=
  inl (AttributeError "DashScopeConfig" "MODEL_NAME").
End DashScopeConfig.

Module ChatMessage.
Record t := mk {
  role : string;
  content : string;
  timestamp : option time
}.
End ChatMessage.

Module ChatRequest.
Record t := mk {
  messages : list ChatMessage.t;
  model : option string;
  temperature : option Q;
  max_tokens : option Z;
  stream : option bool
}.

(** The request a client gets when it sends [messages] only. *)
Definition defaults (messages : list ChatMessage.t) : t :=
  mk messages (Some DashScopeConfig.model_name)
     (Some DashScopeConfig.temperature) (Some DashScopeConfig.max_tokens)
     (Some false).
End ChatRequest.

Module ChatResponse.
Record t := mk {
  message : ChatMessage.t;
  model : string;
  usage : option (list (string * Z))
}.
End ChatResponse.

(** One server-sent event. The generator yields the text
    ["data: " + json + "\n\n"]; the model keeps the JSON object.
    [StreamResponse] is the pydantic model, [error_response] the
    dictionary built in the [except] branch. *)
Inductive sse_event :=
| StreamResponse (content : string) (finished : bool) (model : string)
                 (timestamp : time)
| error_response (error : string) (finished : bool) (timestamp : time).

(* ===================================================================== *)
(** * The OpenAI client                                                   *)
(* ===================================================================== *)

(** The keyword arguments of [client.chat.completions.create]. *)
Module ApiCall.
Record t := mk {
  model : string;
  messages : list (string * string);   (* {"role": _, "content": _} *)
  max_tokens : option Z;
  temperature : option Q;
  stream : bool
}.
End ApiCall.

(** A chunk of a streamed completion: [chunk.choices] and, for each
    choice, [choice.delta.content]. *)
Module Chunk.
Record t := mk { choices : option (list (option string)) }.
End Chunk.

(** A complete response: for each choice [choice.message.content]. *)
Module Completion.
Record t := mk {
  choices : option (list (option string));
  model : string;
  usage : option (list (string * Z))
}.
End Completion.

(** What the provider does when it is called. A streamed completion hands
    out [chunks] and then either stops or raises [failure]. *)
Inductive stream_result :=
| StreamRaises (message : string)
| Stream (chunks : list Chunk.t) (failure : option string).

Inductive completion_result :=
| CompletionRaises (message : string)
| Completed (response : Completion.t).

Module Upstream.
Record t := mk {
  streaming : stream_result;
  single : completion_result
}.
End Upstream.

(* ===================================================================== *)
(** * app/dao/user_dao.py                                                 *)
(* ===================================================================== *)

Definition fake_users_db : gmap string UserInDB.t :=
  {[ "root" :=
       UserInDB.mk "root" (Some "root@163.com") (Some "Administrator")
         (Some false)
         "$2b$12$jiHSlVYQc72WrfBlB2/vX.70MMYdWpKCkdsKoEajvwMv5x9sHzwdq" ]}.

(** [UserDAO]: [self.db] is passed in and, for the methods that write,
    returned. The stored dictionaries and the [UserInDB] objects built
    from them carry the same five fields. *)
Module UserDAO.

Definition get_user (db : gmap string UserInDB.t) (username : string)
  : option UserInDB.t :=
  db !! username.

Definition update_user (db : gmap string UserInDB.t) (user : UserInDB.t)
  : exn + (UserInDB.t * gmap string UserInDB.t) :=
  match get_user db (UserInDB.username user) with
  | None =>
      (* the first attribute access on [None] *)
      match UserInDB.email user, UserInDB.full_name user with
      | None, Some _ => inl (AttributeError "NoneType" "full_name")
      | _, _ => inl (AttributeError "NoneType" "username")
      end
  | Some current_user =>
      let current_user :=
        match UserInDB.email user with
        | Some e => UserInDB.set_username e current_user
        | None => current_user
        end in
      let current_user :=
        match UserInDB.full_name user with
        | Some f => UserInDB.set_full_name (Some f) current_user
        | None => current_user
        end in
      inr (current_user,
           <[UserInDB.username current_user := current_user]> db)
  end.

Definition save_user (db : gmap string UserInDB.t) (user : UserInDB.t)
  : UserInDB.t * gmap string UserInDB.t :=
  (user, <[UserInDB.username user := user]> db).

Definition delete_user (db : gmap string UserInDB.t) (username : string)
  : exn + (UserInDB.t * gmap string UserInDB.t) :=
  match get_user db username with
  | None => inl (AttributeError "NoneType" "disabled")
  | Some current_user =>
      let current_user := UserInDB.set_disabled (Some true) current_user in
      inr (current_user,
           <[UserInDB.username current_user := current_user]> db)
  end.

Definition list_user (db : gmap string UserInDB.t)
  : gmap string UserInDB.t :=
  db.

End UserDAO.

(* ===================================================================== *)
(** * The [jwt] package and app/configs/jwt.py                            *)
(* ===================================================================== *)

(** Claim values of a decoded payload: strings and numbers. *)
Inductive jwt_value :=
| JStr (s : string)
| JInt (n : Z).

(** Values of the dictionary handed to [jwt.encode]: JSON values, and
    [datetime] objects. *)
Inductive claim_value :=
| Json (v : jwt_value)
| Datetime (t : time).

(** The whole seconds of a [datetime], as [jwt.encode] stores it
    ([timegm(t.utctimetuple())]: the microseconds are dropped). *)
Definition seconds_of (t : time) : Z := t / 1000000.

(** The interface of the [jwt] package the application relies on.

    [jwt_verifies] tells whether a token passes the checks that
    [jwt.decode] makes before it validates the claims (structure,
    algorithm, signature); a token that fails them is refused without the
    clock being read. [jwt_decode] is the whole of [jwt.decode], given
    the reading [now] of the clock it takes to validate the claims.

    A dictionary of JSON claims with a [datetime] under ["exp"], encoded
    under a key and an algorithm, decodes under the same key and
    algorithm to the claims with the expiry in whole seconds, as long as
    the clock has not reached that second; from then on it is refused as
    expired. *)
Class JwtLib := {
  token : Type;
  jwt_encode : gmap string claim_value -> string -> string -> token;
  jwt_verifies : token -> string -> list string -> bool;
  jwt_decode :
    token -> string -> list string -> time -> jwt_error + gmap string jwt_value;
  jwt_decode_unverified :
    forall (tok : token) (key : string) (algorithms : list string) (now : time),
      jwt_verifies tok key algorithms = false ->
      exists e, jwt_decode tok key algorithms now = inl e;
  jwt_decode_encode :
    forall (claims : gmap string jwt_value) (key alg : string) (now exp : time),
      jwt_decode
        (jwt_encode (<["exp" := Datetime exp]> (Json <$> claims)) key alg)
        key [alg] now =
        if seconds_of exp * 1000000 <=? now then inl ExpiredSignatureError
        else inr (<["exp" := JInt (seconds_of exp)]> claims)
}.

(** A reference implementation of the interface: the token is the stored
    payload together with the key and the algorithm it was signed with. *)
Module PlainJwt.
Definition token : Type := gmap string jwt_value * string * string.

Definition stored (v : claim_value) : jwt_value :=
  match v with
  | Json v => v
  | Datetime t => JInt (seconds_of t)
  end.

Definition encode (payload : gmap string claim_value) (key alg : string)
  : token :=
  (stored <$> payload, key, alg).

Definition verifies (t : token) (key : string) (algorithms : list string)
  : bool :=
  let '(_, k, a) := t in
  String.eqb k key && existsb (String.eqb a) algorithms.

Definition decode (t : token) (key : string) (algorithms : list string)
    (now : time) : jwt_error + gmap string jwt_value :=
  let '(payload, k, a) := t in
  if negb (String.eqb k key) then inl InvalidSignatureError
  else if negb (existsb (String.eqb a) algorithms)
  then inl InvalidAlgorithmError
  else match payload !! "exp" with
       | Some (JInt exp) =>
           if exp * 1000000 <=? now then inl ExpiredSignatureError
           else inr payload
       | Some (JStr _) => inl DecodeError
       | None => inr payload
       end.
End PlainJwt.

Module JWTConfig.
Record t := mk {
  secret_key : string;
  algorithm : string;
  access_token_expire_minutes : Z
}.
End JWTConfig.

(** [timedelta(minutes=m)], in microseconds; a [timedelta] is truthy
    unless it is zero. *)
Definition timedelta_minutes (m : Z) : Z := m * 60 * 1000000.

(* ===================================================================== *)
(** * Effects of a request                                                *)
(* ===================================================================== *)

(** The process-wide state: the user table, the conversation logs and the
    number of clock readings taken so far. *)
Record state := mkState {
  db : gmap string UserInDB.t;
  chatHistory : gmap string (list ChatMessage.t);
  ticks : nat
}.

(** What a request does to the outside world, in the order it does it. *)
Inductive effect :=
| Call (call : ApiCall.t)                          (* completions.create *)
| Persist (username : string) (msg : ChatMessage.t) (* list.append *)
| Emit (event : sse_event)                         (* yield *)
| Sleep.                                           (* await asyncio.sleep *)

(** State, exceptions and an ordered log of effects. A raised exception
    leaves the state as it was when it was raised. *)
Definition M (A : Type) : Type := state -> (exn + A) * state * list effect.

Definition ret {A} (a : A) : M A := fun s => (inr a, s, []).

Definition raise {A} (e : exn) : M A := fun s => (inl e, s, []).

Definition bind {A B} (m : M A) (k : A -> M B) : M B :=
  fun s =>
    match m s with
    | (inl e, s1, tr1) => (inl e, s1, tr1)
    | (inr a, s1, tr1) =>
        let '(r, s2, tr2) := k a s1 in (r, s2, tr1 ++ tr2)
    end.

(** [try: m except Exception as e: handler(e)]. *)
Definition try_except {A} (m : M A) (handler : exn -> M A) : M A :=
  fun s =>
    match m s with
    | (inl e, s1, tr1) =>
        let '(r, s2, tr2) := handler e s1 in (r, s2, tr1 ++ tr2)
    | ok => ok
    end.

Notation "x <-- m ;; k" := (bind m (fun x => k))
  (at level 100, m at next level, right associativity).
Notation "m ;;; k" := (bind m (fun _ => k))
  (at level 100, right associativity).

Definition lift {A} (r : exn + A) : M A := fun s => (r, s, []).

Definition perform (e : effect) : M unit := fun s => (inr tt, s, [e]).

Definition emit (event : sse_event) : M unit := perform (Emit event).

Definition sleep : M unit := perform Sleep.

Definition get_db : M (gmap string UserInDB.t) := fun s => (inr (db s), s, []).

Definition put_db (d : gmap string UserInDB.t) : M unit :=
  fun s => (inr tt, mkState d (chatHistory s) (ticks s), []).

(** [username in chatHistory]. *)
Definition history_has (username : string) : M bool :=
  fun s => (inr (bool_decide (is_Some (chatHistory s !! username))), s, []).

(** [chatHistory[username] = value]. *)
Definition history_set (username : string) (value : list ChatMessage.t)
  : M unit :=
  fun s => (inr tt, mkState (db s) (<[username := value]> (chatHistory s))
                      (ticks s), []).

(** [chatHistory[username]], a [KeyError] when the key is missing. *)
Definition history_lookup (username : string) : M (list ChatMessage.t) :=
  fun s =>
    match chatHistory s !! username with
    | Some l => (inr l, s, [])
    | None => (inl (KeyError username), s, [])
    end.

(** [.append(msg)] on the list object stored under [username]. *)
Definition history_push (username : string) (msg : ChatMessage.t) : M unit :=
  fun s =>
    (inr tt,
     mkState (db s) (alter (fun l => l ++ [msg]) username (chatHistory s))
       (ticks s),
     [Persist username msg]).

(** [del chatHistory[username]]. *)
Definition history_del (username : string) : M unit :=
  fun s => (inr tt, mkState (db s) (delete username (chatHistory s)) (ticks s),
            []).

(** [if username not in chatHistory: chatHistory[username] = []]. *)
Definition init_history (username : string) : M unit :=
  known <-- history_has username;;
  if known then ret tt else history_set username [].

(** [chatHistory[username].append(msg)] for a message built beforehand. *)
Definition append_history (username : string) (msg : ChatMessage.t) : M unit :=
  history_lookup username;;;
  history_push username msg.

(** What a chat request hands back to the framework: a complete answer,
    or a response whose body is a generator still to be run. *)
Inductive chat_result :=
| Complete (response : ChatResponse.t)
| StreamingResponse (body : M unit) (media_type : string)
                    (headers : list (string * string)).

(** The dictionary returned by [DELETE /history]. *)
Module Cleared.
Record t := mk {
  message : string;
  user : string;
  deleted_messages : nat;
  timestamp : time
}.
End Cleared.

Section App.

(** The [jwt] package, the system clock ([clock n] is the value of the
    [n]-th reading of [datetime.now]) and the two environment variables
    read by [JWTConfig]. *)
Context `{JwtLib}.
Variable clock : nat -> time.
Variables JWT_SECRET_KEY JWT_ALGORITHM : string.

Definition now : M time :=
  fun s => (inr (clock (ticks s)),
            mkState (db s) (chatHistory s) (S (ticks s)), []).

(* =================================================================== *)
(** ** app/utils/jwt_util.py                                            *)
(* =================================================================== *)

Definition jwt_config : JWTConfig.t :=
  JWTConfig.mk JWT_SECRET_KEY JWT_ALGORITHM 30.

(** The dictionary handed to [jwt.encode]: a copy of [data] with the
    expiry, a [datetime], under ["exp"]. [now] is the reading of
    [datetime.now(timezone.utc)]. *)
Definition to_encode (data : gmap string jwt_value) (now : time)
  : gmap string claim_value :=
  let expires_delta :=
    timedelta_minutes (JWTConfig.access_token_expire_minutes jwt_config) in
  let expire :=
    if negb (expires_delta =? 0) then now + expires_delta
    else now + timedelta_minutes 15 in
  <["exp" := Datetime expire]> (Json <$> data).

Definition create_access_token (data : gmap string jwt_value) (now : time)
  : token :=
  jwt_encode (to_encode data now) (JWTConfig.secret_key jwt_config)
    (JWTConfig.algorithm jwt_config).

(** [now] is the reading of the clock that [jwt.decode] takes. *)
Definition decode_token (tok : token) (now : time)
  : jwt_error + gmap string jwt_value :=
  jwt_decode tok (JWTConfig.secret_key jwt_config)
    [JWTConfig.algorithm jwt_config] now.

(* =================================================================== *)
(** ** app/routers/user_router.py                                       *)
(* =================================================================== *)

(** Raised with the header [WWW-Authenticate: Bearer]. *)
Definition credentials_exception : exn :=
  HTTPException 401 "Token 验证失败".

(** A token that fails the checks made before the claims are validated
    is refused by [decode_token] without a reading of the clock; any
    other token costs one reading. A subject that is not a string is
    refused like a missing one. *)
Definition get_current_user (tok : token) : M UserInDB.t :=
  if negb (jwt_verifies tok (JWTConfig.secret_key jwt_config)
             [JWTConfig.algorithm jwt_config])
  then raise credentials_exception
  else
    t <-- now;;
    match decode_token tok t with
    | inl _ => raise credentials_exception
    | inr payload =>
        match payload !! "sub" with
        | None => raise credentials_exception
        | Some (JInt _) => raise credentials_exception
        | Some (JStr username) =>
            users <-- get_db;;
            match UserDAO.get_user users username with
            | None => raise credentials_exception
            | Some user => ret user
            end
        end
    end.

Definition get_current_active_user (current_user : UserInDB.t)
  : M UserInDB.t :=
  if truthy_flag (UserInDB.disabled current_user)
  then raise (HTTPException 400 "无效用户")
  else ret current_user.

(** [Depends(get_current_active_user)] on an endpoint: the two
    dependencies run in a chain before the endpoint's body. *)
Definition protected {A} (endpoint : UserInDB.t -> M A) (tok : token)
  : M A :=
  user <-- get_current_user tok;;
  current_user <-- get_current_active_user user;;
  endpoint current_user.

Definition get_user_info (current_user : UserInDB.t) : M UserInDB.t :=
  ret current_user.

Definition update_user_info (user_update : UserUpdate.t)
    (current_user : UserInDB.t) : M UserInDB.t :=
  let current_user :=
    UserInDB.set_email (UserUpdate.email user_update) current_user in
  let current_user :=
    UserInDB.set_full_name (UserUpdate.full_name user_update) current_user in
  users <-- get_db;;
  match UserDAO.update_user users current_user with
  | inl e => raise e
  | inr (updated_user, users') => put_db users';;; ret updated_user
  end.

(** Returns the name of the deleted user and the time of deletion. *)
Definition delete_user_account (current_user : UserInDB.t)
  : M (string * time) :=
  users <-- get_db;;
  match UserDAO.delete_user users (UserInDB.username current_user) with
  | inl e => raise e
  | inr (_, users') =>
      put_db users';;;
      t <-- now;;
      ret (UserInDB.username current_user, t)
  end.

Definition get_all_users (current_user : UserInDB.t)
  : M (gmap string UserInDB.t) :=
  users <-- get_db;;
  ret (UserDAO.list_user users).

(* =================================================================== *)
(** ** app/routers/chat_router.py                                       *)
(* =================================================================== *)

Definition convert_messages_for_api (messages : list ChatMessage.t)
  : list (string * string) :=
  map (fun msg => (ChatMessage.role msg, ChatMessage.content msg)) messages.

(** [request.model or config.MODEL_NAME]. *)
Definition model_or_default (request : ChatRequest.t) : M string :=
  match ChatRequest.model request with
  | Some m => if truthy m then ret m else lift DashScopeConfig.MODEL_NAME
  | None => lift DashScopeConfig.MODEL_NAME
  end.

(** [client.chat.completions.create(..., stream=True)]. *)
Definition create_stream (call : ApiCall.t) (up : stream_result)
  : M (list Chunk.t * option string) :=
  perform (Call call);;;
  match up with
  | StreamRaises message => raise (APIError message)
  | Stream chunks failure => ret (chunks, failure)
  end.

(** [client.chat.completions.create(..., stream=False)]. *)
Definition create_completion (call : ApiCall.t) (up : completion_result)
  : M Completion.t :=
  perform (Call call);;;
  match up with
  | CompletionRaises message => raise (APIError message)
  | Completed response => ret response
  end.

(** The test [chunk.choices and chunk.choices[0].delta.content]: the
    content of the first choice when it is a non-empty string. *)
Definition delta_content (chunk : Chunk.t) : option string :=
  match Chunk.choices chunk with
  | Some (Some content :: _) => if truthy content then Some content else None
  | _ => None
  end.

(** The loop [for chunk in stream] with its accumulator; the stream
    raises [failure], if any, once its chunks are used up. *)
Fixpoint for_chunk_in_stream (request : ChatRequest.t)
    (chunks : list Chunk.t) (failure : option string)
    (accumulated_content : string) : M string :=
  match chunks with
  | [] =>
      match failure with
      | Some message => raise (APIError message)
      | None => ret accumulated_content
      end
  | chunk :: stream =>
      match delta_content chunk with
      | Some chunk_content =>
          let accumulated_content := accumulated_content +:+ chunk_content in
          m <-- model_or_default request;;
          t <-- now;;
          emit (StreamResponse chunk_content false m t);;;
          sleep;;;
          for_chunk_in_stream request stream failure accumulated_content
      | None =>
          for_chunk_in_stream request stream failure accumulated_content
      end
  end.

(** The generator, run until it is exhausted. *)
Definition generate_stream_response (request : ChatRequest.t)
    (username : string) (up : stream_result) : M unit :=
  try_except
    (let api_messages :=
       convert_messages_for_api (ChatRequest.messages request) in
     m <-- model_or_default request;;
     stream <-- create_stream
                  (ApiCall.mk m api_messages (ChatRequest.max_tokens request)
                     (ChatRequest.temperature request) true) up;;
     accumulated_content <--
       for_chunk_in_stream request (fst stream) (snd stream) "";;
     if truthy accumulated_content then
       m <-- model_or_default request;;
       t <-- now;;
       let final_response := StreamResponse "" true m t in
       history_lookup username;;;
       t <-- now;;
       history_push username
         (ChatMessage.mk "assistant" accumulated_content (Some t));;;
       emit final_response
     else ret tt)
    (fun e =>
       t <-- now;;
       emit (error_response (str e) true t)).

(** The two [except] clauses that close the body of [chat]. *)
Definition except_http {A} (body : M A) : M A :=
  try_except body
    (fun e =>
       match e with
       | HTTPException _ _ => raise e
       | _ => raise (HTTPException 500
                       ("处理聊天请求时发生错误: " +:+ str e))
       end).

Definition chat (request : ChatRequest.t) (up : Upstream.t)
    (current_user : UserInDB.t) : M chat_result :=
  except_http
    (let username := UserInDB.username current_user in
     init_history username;;;
     last_message <--
       match last (ChatRequest.messages request) with
       | Some msg => ret msg
       | None => raise IndexError
       end;;
     t <-- now;;
     let user_message :=
       ChatMessage.mk (ChatMessage.role last_message)
         (ChatMessage.content last_message) (Some t) in
     append_history username user_message;;;
     if truthy_flag (ChatRequest.stream request) then
       ret (StreamingResponse
              (generate_stream_response request username
                 (Upstream.streaming up))
              "text/plain"
              [("Cache-Control", "no-cache"); ("Connection", "keep-alive");
               ("Content-Type", "text/event-stream")])
     else
       let api_messages :=
         convert_messages_for_api (ChatRequest.messages request) in
       m <-- model_or_default request;;
       response <-- create_completion
                      (ApiCall.mk m api_messages
                         (ChatRequest.max_tokens request)
                         (ChatRequest.temperature request) false)
                      (Upstream.single up);;
       match Completion.choices response with
       | Some (choice :: _) =>
           t <-- now;;
           let assistant_message :=
             ChatMessage.mk "assistant"
               (if truthy_opt choice then default "" choice else "")
               (Some t) in
           append_history username assistant_message;;;
           ret (Complete (ChatResponse.mk assistant_message
                            (Completion.model response)
                            (Completion.usage response)))
       | _ => raise (HTTPException 500 "AI模型返回了空响应")
       end).

(** The framework sends the response: a streaming body is run to its
    end, a complete answer is returned as it is. *)
Definition send (r : chat_result) : M (option ChatResponse.t) :=
  match r with
  | Complete response => ret (Some response)
  | StreamingResponse body _ _ => body;;; ret None
  end.

(** One [POST /chat/chat] of an already authenticated user, from the
    call of the endpoint to the last byte of the response. *)
Definition post_chat (request : ChatRequest.t) (up : Upstream.t)
    (current_user : UserInDB.t) : M (option ChatResponse.t) :=
  r <-- chat request up current_user;;
  send r.

Definition get_user_history (current_user : UserInDB.t)
  : M (list ChatMessage.t) :=
  let username := UserInDB.username current_user in
  known <-- history_has username;;
  if negb known then ret []
  else
    history <-- history_lookup username;;
    ret (map (fun msg =>
                ChatMessage.mk (ChatMessage.role msg)
                  (ChatMessage.content msg) (ChatMessage.timestamp msg))
             history).

Definition clear_user_history (current_user : UserInDB.t) : M Cleared.t :=
  let username := UserInDB.username current_user in
  known <-- history_has username;;
  if known then
    history <-- history_lookup username;;
    let message_count := length history in
    history_del username;;;
    t <-- now;;
    ret (Cleared.mk "聊天历史已清空" username message_count t)
  else
    t <-- now;;
    ret (Cleared.mk "用户没有聊天历史" username 0 t).

End App.

(* ===================================================================== *)
(** * Reading a trace                                                     *)
(* ===================================================================== *)

(** The events a client receives, in order. *)
Definition events (tr : list effect) : list sse_event :=
  omap (fun e => match e with Emit ev => Some ev | _ => None end) tr.

(** The messages written to conversation logs, in order. *)
Definition persisted (tr : list effect) : list ChatMessage.t :=
  omap (fun e => match e with Persist _ msg => Some msg | _ => None end) tr.

(** The content and the [finished] flag of a fragment event. *)
Definition fragment_of (ev : sse_event) : option (string * bool) :=
  match ev with
  | StreamResponse content finished _ _ => Some (content, finished)
  | error_response _ _ _ => None
  end.

(** The events built in the [except] branch of the generator. *)
Definition is_error_event (ev : sse_event) : bool :=
  match ev with
  | error_response _ _ _ => true
  | StreamResponse _ _ _ _ => false
  end.

(** The content-bearing fragments of an upstream stream, in order. *)
Definition fragments (chunks : list Chunk.t) : list string :=
  omap delta_content chunks.

(** Concatenation of fragment contents. *)
Definition join (contents : list string) : string :=
  foldr String.append "" contents.

(** The expected relay of fragments under model name [m], the first one
    stamped with the clock reading number [t]: one unfinished event per
    fragment, each followed by a suspension. *)
Fixpoint relayed (clock : nat -> time) (m : string) (t : nat)
    (contents : list string) : list effect :=
  match contents with
  | [] => []
  | c :: rest =>
      Emit (StreamResponse c false m (clock t)) :: Sleep
        :: relayed clock m (S t) rest
  end.

(** The call a chat request makes upstream. *)
Definition api_call (request : ChatRequest.t) (m : string) (stream : bool)
  : ApiCall.t :=
  ApiCall.mk m (convert_messages_for_api (ChatRequest.messages request))
    (ChatRequest.max_tokens request) (ChatRequest.temperature request) stream.



(** A sequence of appends to one user's log, as the routers perform them:
    a user turn creates the log when it is missing, an assistant turn
    expects it to be there. *)
Inductive turn :=
| UserTurn (msg : ChatMessage.t)
| AssistantTurn (msg : ChatMessage.t).

Definition turn_message (t : turn) : ChatMessage.t :=
  match t with
  | UserTurn msg => msg
  | AssistantTurn msg => msg
  end.

Definition is_user_turn (t : turn) : bool :=
  match t with
  | UserTurn _ => true
  | AssistantTurn _ => false
  end.

Definition append_turn (username : string) (t : turn) : M unit :=
  match t with
  | UserTurn msg => init_history username;;; append_history username msg
  | AssistantTurn msg => append_history username msg
  end.

Fixpoint append_turns (username : string) (turns : list turn) : M unit :=
  match turns with
  | [] => ret tt
  | t :: rest => append_turn username t;;; append_turns username rest
  end.

(** Every record of a user table is stored under its own [username]. *)
Definition keyed_by_username (users : gmap string UserInDB.t) : Prop :=
  forall key user, users !! key = Some user -> UserInDB.username user = key.

(** The model name a request resolves to: [request.model] when it is a
    non-empty string. *)
Definition model_name (request : ChatRequest.t) : option string :=
  match ChatRequest.model request with
  | Some m => if truthy m then Some m else None
  | None => None
  end.

(** The table of an example: the administrator and a disabled account. *)
Definition users_with_disabled_bob : gmap string UserInDB.t :=
  <["bob" := UserInDB.mk "bob" None (Some "Bob") (Some true) "$2b$12$digest"]>
    fake_users_db.

(** The reference [jwt] implementation satisfies the interface. *)
Definition plain_jwt : JwtLib.
Proof.
  refine {| token := PlainJwt.token;
            jwt_encode := PlainJwt.encode;
            jwt_verifies := PlainJwt.verifies;
            jwt_decode := PlainJwt.decode |}.
  - intros [[payload k] a] key algorithms now.
    unfold PlainJwt.verifies, PlainJwt.decode.
    destruct (String.eqb k key); simpl; [| eauto].
    destruct (existsb (String.eqb a) algorithms); simpl; [discriminate | eauto].
  - intros claims key alg now exp.
    unfold PlainJwt.decode, PlainJwt.encode.
    rewrite String.eqb_refl. simpl. rewrite String.eqb_refl. simpl.
    assert (Hstored :
              PlainJwt.stored <$> <["exp" := Datetime exp]> (Json <$> claims)
              = <["exp" := JInt (seconds_of exp)]> claims).
    { rewrite fmap_insert. simpl. f_equal.
      apply map_eq. intros k. rewrite !lookup_fmap.
      by destruct (claims !! k). }
    rewrite Hstored, lookup_insert_eq. reflexivity.
Defined.

(* ===================================================================== *)
(** * The remaining endpoints                                             *)
(* ===================================================================== *)

(** [User], as a response model: a [UserInDB] without the digest. *)
Module User.
Record t := mk {
  username : string;
  email : option string;
  full_name : option string;
  disabled : option bool
}.
End User.

Module UserSignUp.
Record t := mk {
  username : string;
  password : string;
  email : option string;
  full_name : option string
}.
End UserSignUp.

Module LoginRequest.
Record t := mk {
  username : string;
  password : string
}.
End LoginRequest.

(** The response of [POST /user/token]; [A] is the type of tokens. *)
Module Token.
Record t (A : Type) := mk {
  message : string;
  access_token : A;
  token_type : string;
  username : string
}.
Arguments mk {A} _ _ _ _.
Arguments message {A} _.
Arguments access_token {A} _.
Arguments token_type {A} _.
Arguments username {A} _.
End Token.

(** The dictionary returned by [GET /chat/models]. *)
Module Models.
Record t := mk {
  models : list string;
  default_model : string;
  note : option string;
  user : string
}.
End Models.

(** The dictionary returned by [GET /chat/health]. *)
Module Health.
Record t := mk {
  status : string;
  timestamp : time;
  version : string;
  model : string
}.
End Health.

(** What [client.models.list()] does: it raises, or it lists model ids. *)
Inductive models_result :=
| ModelsRaises (message : string)
| ModelsListed (ids : list string).

(** The interface of app/utils/pwd_util.py, two wrappers around passlib's
    bcrypt context. Hashing draws a fresh salt, which is an argument here;
    a digest verifies against the password it was made from. *)
Class PwdLib := {
  get_password_hash : string -> string -> string;   (* salt, password *)
  verify_password : string -> string -> bool;       (* password, digest *)
  verify_password_hash :
    forall salt password : string,
      verify_password password (get_password_hash salt password) = true
}.

(** A reference implementation: the digest is the salt, a separator and
    the password. *)
Module PlainPwd.
Definition hash (salt password : string) : string :=
  salt +:+ "$" +:+ password.

Fixpoint is_suffix (suffix s : string) : bool :=
  String.eqb suffix s
  || match s with
     | EmptyString => false
     | String _ rest => is_suffix suffix rest
     end.

Definition verify (password digest : string) : bool :=
  is_suffix ("$" +:+ password) digest.
End PlainPwd.

Section Endpoints.

Context {jwt : JwtLib} {pwd : PwdLib}.
Variable clock : nat -> time.
Variables JWT_SECRET_KEY JWT_ALGORITHM : string.

(* ------------------------------------------------------------------- *)
(** ** app/routers/user_router.py, continued                            *)
(* ------------------------------------------------------------------- *)

(** [False] is [None]. A pydantic object is always truthy. *)
Definition authenticate_user (username password : string)
  : M (option UserInDB.t) :=
  users <-- get_db;;
  match UserDAO.get_user users username with
  | None => ret None
  | Some user =>
      if negb (verify_password password (UserInDB.hashed_password user))
      then ret None
      else ret (Some user)
  end.

(** [salt] is the salt bcrypt draws for this registration. *)
Definition sign_up (user : UserSignUp.t) (salt : string) : M User.t :=
  users <-- get_db;;
  match UserDAO.get_user users (UserSignUp.username user) with
  | Some _ => raise (HTTPException 400 "用户名已存在")
  | None =>
      let hashed_password :=
        get_password_hash salt (UserSignUp.password user) in
      let new_user :=
        UserInDB.mk (UserSignUp.username user) (UserSignUp.email user)
          (UserSignUp.full_name user) (Some false) hashed_password in
      users <-- get_db;;
      put_db (snd (UserDAO.save_user users new_user));;;
      ret (User.mk (UserSignUp.username user) (UserSignUp.email user)
             (UserSignUp.full_name user) (Some false))
  end.

(** Raised with the header [WWW-Authenticate: Bearer]. *)
Definition login_for_access_token (login_data : LoginRequest.t)
  : M (Token.t token) :=
  user <-- authenticate_user (LoginRequest.username login_data)
             (LoginRequest.password login_data);;
  match user with
  | None => raise (HTTPException 401 "用户名或密码错误")
  | Some user =>
      t <-- now clock;;
      let access_token :=
        create_access_token JWT_SECRET_KEY JWT_ALGORITHM
          {["sub" := JStr (UserInDB.username user)]} t in
      ret (Token.mk "登录成功" access_token "bearer" (UserInDB.username user))
  end.

(** Returns the message, the user's name and the time of the logout. *)
Definition logout (current_user : UserInDB.t) : M (string * string * time) :=
  t <-- now clock;;
  ret ("退出登录成功", UserInDB.username current_user, t).

(* ------------------------------------------------------------------- *)
(** ** app/routers/chat_router.py, continued                            *)
(* ------------------------------------------------------------------- *)

(** [up] is what [client.models.list()] does when it is called; the call
    itself is not entered in the trace. *)
Definition get_models (up : models_result) (current_user : UserInDB.t)
  : M Models.t :=
  try_except
    (models <--
       match up with
       | ModelsRaises message => raise (APIError message)
       | ModelsListed ids => ret ids
       end;;
     default_model <-- lift DashScopeConfig.MODEL_NAME;;
     ret (Models.mk models default_model None
            (UserInDB.username current_user)))
    (fun _ =>
       m <-- lift DashScopeConfig.MODEL_NAME;;
       default_model <-- lift DashScopeConfig.MODEL_NAME;;
       ret (Models.mk [m] default_model (Some "使用默认模型配置")
              (UserInDB.username current_user))).

Definition health_check : M Health.t :=
  t <-- now clock;;
  m <-- lift DashScopeConfig.MODEL_NAME;;
  ret (Health.mk "healthy" t "1.0.0" m).

End Endpoints.

(** The reference password hashing satisfies the interface. *)
Definition plain_pwd : PwdLib.
Proof.
  refine {| get_password_hash := PlainPwd.hash;
            verify_password := PlainPwd.verify |}.
  intros salt password. unfold PlainPwd.verify, PlainPwd.hash.
  generalize ("$" +:+ password). intros suffix.
  induction salt as [| a salt IH].
  - change ("" +:+ suffix) with suffix.
    destruct suffix; cbn [PlainPwd.is_suffix]; by rewrite String.eqb_refl.
  - change (String a salt +:+ suffix) with (String a (salt +:+ suffix)).
    cbn [PlainPwd.is_suffix]. rewrite IH. apply orb_true_r.
Defined.

(** The state after one more reading of the clock. *)
Definition tick (s : state) : state :=
  mkState (db s) (chatHistory s) (S (ticks s)).

(** The [finished] flag of an event. *)
Definition event_finished (ev : sse_event) : bool :=
  match ev with
  | StreamResponse _ finished _ _ => finished
  | error_response _ finished _ => finished
  end.

(* ===================================================================== *)
(** * The user table                                                      *)
(* ===================================================================== *)

Lemma fake_users_db_keyed : keyed_by_username fake_users_db.
Proof.
  intros key user Hlook. unfold fake_users_db in Hlook.
  apply lookup_singleton_Some in Hlook as [<- <-]. reflexivity.
Qed.

Lemma save_user_keyed users user :
  keyed_by_username users ->
  keyed_by_username (snd (UserDAO.save_user users user)).
Proof.
  intros Hk key u. simpl. rewrite lookup_insert.
  case_decide; [intros [= <-]; done | apply Hk].
Qed.

Lemma update_user_keyed users user r users' :
  keyed_by_username users ->
  UserDAO.update_user users user = inr (r, users') ->
  keyed_by_username users'.
Proof.
  intros Hk. unfold UserDAO.update_user, UserDAO.get_user.
  destruct (users !! UserInDB.username user) as [cur|];
    [| destruct (UserInDB.email user), (UserInDB.full_name user); discriminate].
  intros [= <- <-] key u. rewrite lookup_insert.
  case_decide; [intros [= <-]; done | apply Hk].
Qed.

Lemma delete_user_keyed users username r users' :
  keyed_by_username users ->
  UserDAO.delete_user users username = inr (r, users') ->
  keyed_by_username users'.
Proof.
  intros Hk. unfold UserDAO.delete_user, UserDAO.get_user.
  destruct (users !! username) as [cur|]; [| discriminate].
  intros [= <- <-] key u. rewrite lookup_insert.
  case_decide; [intros [= <-]; done | apply Hk].
Qed.

(** No method of [UserDAO] removes a key from the table. *)
Lemma save_user_keeps_keys users user :
  dom users ⊆ dom (snd (UserDAO.save_user users user)).
Proof. simpl. rewrite dom_insert_L. set_solver. Qed.

Lemma update_user_keeps_keys users user r users' :
  UserDAO.update_user users user = inr (r, users') -> dom users ⊆ dom users'.
Proof.
  unfold UserDAO.update_user, UserDAO.get_user.
  destruct (users !! UserInDB.username user) as [cur|];
    [| destruct (UserInDB.email user), (UserInDB.full_name user); discriminate].
  intros [= <- <-]. rewrite dom_insert_L. set_solver.
Qed.

Lemma delete_user_keeps_keys users username r users' :
  UserDAO.delete_user users username = inr (r, users') -> dom users ⊆ dom users'.
Proof.
  unfold UserDAO.delete_user, UserDAO.get_user.
  destruct (users !! username) as [cur|]; [| discriminate].
  intros [= <- <-]. rewrite dom_insert_L. set_solver.
Qed.

(** C8. Deleting an account is a soft delete: for a user stored in the
    table, [DELETE /user/del] leaves the record in place under the same
    key with [disabled] set to [True] and its username, e-mail, full name
    and password digest as they were; the record is in the result of
    [list_user]; every other record is untouched and the table has the
    same keys as before. Moreover none of the writing methods of the DAO
    ([save_user], [update_user], [delete_user]) ever removes a key. *)
Theorem delete_user_account_is_soft :
  forall (clock : nat -> time) (current_user user : UserInDB.t) (s : state),
    keyed_by_username (db s) ->
    db s !! UserInDB.username current_user = Some user ->
    let disabled_user :=
      UserInDB.mk (UserInDB.username user) (UserInDB.email user)
        (UserInDB.full_name user) (Some true) (UserInDB.hashed_password user) in
    (exists s',
        delete_user_account clock current_user s =
          (inr (UserInDB.username current_user, clock (ticks s)), s', [])
        /\ db s' !! UserInDB.username current_user = Some disabled_user
        /\ UserDAO.list_user (db s') !! UserInDB.username current_user
           = Some disabled_user
        /\ (forall other, other <> UserInDB.username current_user ->
                          db s' !! other = db s !! other)
        /\ dom (db s') = dom (db s)
        /\ chatHistory s' = chatHistory s)
    /\ (forall users u, dom users ⊆ dom (snd (UserDAO.save_user users u)))
    /\ (forall users u r users',
           UserDAO.update_user users u = inr (r, users') ->
           dom users ⊆ dom users')
    /\ (forall users u r users',
           UserDAO.delete_user users u = inr (r, users') ->
           dom users ⊆ dom users').
Proof.
  intros clock current_user user s Hk Hlook disabled_user.
  split; [| split; [| split]].
  - pose proof (Hk _ _ Hlook) as Hname.
    unfold delete_user_account, UserDAO.delete_user, UserDAO.get_user,
      bind, get_db, put_db, now, ret.
    rewrite Hlook. simpl. rewrite Hname.
    eexists. split; [reflexivity |]. simpl.
    fold disabled_user. unfold UserDAO.list_user.
    repeat split.
    + apply lookup_insert_eq.
    + apply lookup_insert_eq.
    + intros other Hne. by apply lookup_insert_ne.
    + rewrite dom_insert_L.
      assert (Hin : UserInDB.username current_user ∈ dom (db s))
        by (apply elem_of_dom; eauto).
      by apply subseteq_union_1_L, singleton_subseteq_l.
  - apply save_user_keeps_keys.
  - apply update_user_keeps_keys.
  - apply delete_user_keeps_keys.
Qed.

(** The guard hands [delete_user_account] the record of the caller; here
    it is the administrator of the initial table. *)
Lemma delete_user_account_is_soft_witness :
  keyed_by_username fake_users_db
  /\ fake_users_db !! "root" =
       Some (UserInDB.mk "root" (Some "root@163.com") (Some "Administrator")
               (Some false)
               "$2b$12$jiHSlVYQc72WrfBlB2/vX.70MMYdWpKCkdsKoEajvwMv5x9sHzwdq")
  /\ exists s',
      delete_user_account (fun n => Z.of_nat n)
        (UserInDB.mk "root" (Some "root@163.com") (Some "Administrator")
           (Some false)
           "$2b$12$jiHSlVYQc72WrfBlB2/vX.70MMYdWpKCkdsKoEajvwMv5x9sHzwdq")
        (mkState fake_users_db ∅ 0)
      = (inr ("root", 0), s', [])
      /\ dom (db s') = dom fake_users_db.
Proof.
  split; [apply fake_users_db_keyed |].
  split; [reflexivity |].
  destruct (delete_user_account_is_soft (fun n => Z.of_nat n)
              (UserInDB.mk "root" (Some "root@163.com") (Some "Administrator")
                 (Some false)
                 "$2b$12$jiHSlVYQc72WrfBlB2/vX.70MMYdWpKCkdsKoEajvwMv5x9sHzwdq")
              (UserInDB.mk "root" (Some "root@163.com") (Some "Administrator")
                 (Some false)
                 "$2b$12$jiHSlVYQc72WrfBlB2/vX.70MMYdWpKCkdsKoEajvwMv5x9sHzwdq")
              (mkState fake_users_db ∅ 0)
              fake_users_db_keyed eq_refl)
    as [[s' (Hrun & _ & _ & _ & Hdom & _)] _].
  exists s'. split; [exact Hrun | exact Hdom].
Defined.

(** C3, on the code: [PUT /user/update] with a new e-mail address for the
    administrator of the initial table. [update_user] assigns the address
    to [username] and stores the record under it: the returned record is
    named after the address and keeps the old e-mail, the record under
    ["root"] is exactly the old one, and the table has a second record
    under the e-mail address. *)
Theorem update_user_info_overwrites_username :
  let digest := "$2b$12$jiHSlVYQc72WrfBlB2/vX.70MMYdWpKCkdsKoEajvwMv5x9sHzwdq" in
  let root :=
    UserInDB.mk "root" (Some "root@163.com") (Some "Administrator")
      (Some false) digest in
  let renamed :=
    UserInDB.mk "admin@example.com" (Some "root@163.com")
      (Some "Administrator") (Some false) digest in
  exists s',
    update_user_info (UserUpdate.mk (Some "admin@example.com") None) root
      (mkState fake_users_db ∅ 0) = (inr renamed, s', [])
    /\ db s' !! "root" = Some root
    /\ db s' !! "admin@example.com" = Some renamed
    /\ fake_users_db !! "admin@example.com" = None.
Proof.
  intros digest root renamed. eexists.
  split; [reflexivity |].
  split; [| split]; vm_compute; reflexivity.
Qed.

(* ===================================================================== *)
(** * Tokens and the auth guard                                           *)
(* ===================================================================== *)

Lemma seconds_of_bounds (t : time) :
  seconds_of t * 1000000 <= t < seconds_of t * 1000000 + 1000000.
Proof.
  unfold seconds_of.
  pose proof (Z.div_mod t 1000000 ltac:(lia)) as Hdiv.
  pose proof (Z.mod_pos_bound t 1000000 ltac:(lia)) as Hmod.
  lia.
Qed.

Lemma to_encode_expiry (key alg : string) (data : gmap string jwt_value)
    (T : time) :
  to_encode key alg data T
  = <["exp" := Datetime (T + 30 * 60 * 1000000)]> (Json <$> data).
Proof. reflexivity. Qed.

(** Decoding a freshly issued token: the payload, with the expiry in
    whole seconds, until that second is reached; an expiry error from
    then on. *)
Lemma decode_token_issued `{JwtLib} (key alg : string)
    (data : gmap string jwt_value) (T now : time) :
  decode_token key alg (create_access_token key alg data T) now =
    if seconds_of (T + 30 * 60 * 1000000) * 1000000 <=? now
    then inl ExpiredSignatureError
    else inr (<["exp" := JInt (seconds_of (T + 30 * 60 * 1000000))]> data).
Proof.
  unfold decode_token, create_access_token.
  rewrite to_encode_expiry. simpl.
  apply jwt_decode_encode.
Qed.

(** A token that decodes has passed the checks that come first. *)
Lemma decode_token_verifies `{JwtLib} (key alg : string) (tok : token)
    (now : time) (payload : gmap string jwt_value) :
  decode_token key alg tok now = inr payload ->
  jwt_verifies tok key [alg] = true.
Proof.
  unfold decode_token. simpl. intros Hdec.
  destruct (jwt_verifies tok key [alg]) eqn:Hv; [reflexivity |].
  destruct (jwt_decode_unverified tok key [alg] now Hv) as [e He].
  congruence.
Qed.

(** So has every token the application issues, expired or not. *)
Lemma issued_token_verifies `{JwtLib} (key alg : string)
    (data : gmap string jwt_value) (T : time) :
  jwt_verifies (create_access_token key alg data T) key [alg] = true.
Proof.
  apply (decode_token_verifies key alg _
           (seconds_of (T + 30 * 60 * 1000000) * 1000000 - 1)
           (<["exp" := JInt (seconds_of (T + 30 * 60 * 1000000))]> data)).
  rewrite decode_token_issued.
  destruct (Z.leb_spec (seconds_of (T + 30 * 60 * 1000000) * 1000000)
              (seconds_of (T + 30 * 60 * 1000000) * 1000000 - 1));
    [lia | reflexivity].
Qed.

(** C4, as the code has it. A token issued at time [T] for a subject
    carries that subject and the expiry [T + 30 minutes]; the [jwt]
    package stores the expiry in whole seconds, dropping the
    microseconds, so the stored second lies less than one second before
    [T + 30 minutes]. Decoding the token at any time strictly before the
    stored second returns the payload, hence the subject; decoding it
    from that second on, and so at any time at or after
    [T + 30 minutes], fails with [ExpiredSignatureError]. In particular
    the token verifies at [T + 29 minutes] and is expired at
    [T + 31 minutes]. *)
Theorem access_token_lifetime :
  forall `{JwtLib} (key alg subject : string) (T t : time),
    let data : gmap string jwt_value := {["sub" := JStr subject]} in
    let expire := T + 30 * 60 * 1000000 in
    let exp := seconds_of expire in
    let payload : gmap string jwt_value := <["exp" := JInt exp]> data in
    let tok := create_access_token key alg data T in
    to_encode key alg data T = <["exp" := Datetime expire]> (Json <$> data)
    /\ payload !! "sub" = Some (JStr subject)
    /\ payload !! "exp" = Some (JInt exp)
    /\ exp * 1000000 <= expire < exp * 1000000 + 1000000
    /\ (t < exp * 1000000 -> decode_token key alg tok t = inr payload)
    /\ (exp * 1000000 <= t ->
        decode_token key alg tok t = inl ExpiredSignatureError)
    /\ (expire <= t -> decode_token key alg tok t = inl ExpiredSignatureError)
    /\ decode_token key alg tok (T + 29 * 60 * 1000000) = inr payload
    /\ decode_token key alg tok (T + 31 * 60 * 1000000)
       = inl ExpiredSignatureError.
Proof.
  intros lib key alg subject T t data expire exp payload tok.
  pose proof (seconds_of_bounds expire) as Hbounds. fold exp in Hbounds.
  assert (Hdec : forall now,
             decode_token key alg tok now =
               if exp * 1000000 <=? now then inl ExpiredSignatureError
               else inr payload)
    by (intros now; apply decode_token_issued).
  split; [apply to_encode_expiry |].
  split; [subst payload data; by rewrite lookup_insert_ne, lookup_singleton_eq |].
  split; [apply lookup_insert_eq |].
  split; [exact Hbounds |].
  split; [| split; [| split; [| split]]].
  - intros Hlt. rewrite Hdec.
    destruct (Z.leb_spec (exp * 1000000) t); [lia | reflexivity].
  - intros Hle. rewrite Hdec.
    destruct (Z.leb_spec (exp * 1000000) t); [reflexivity | lia].
  - intros Hle. rewrite Hdec.
    destruct (Z.leb_spec (exp * 1000000) t); [reflexivity | lia].
  - rewrite Hdec.
    destruct (Z.leb_spec (exp * 1000000) (T + 29 * 60 * 1000000));
      [subst expire; lia | reflexivity].
  - rewrite Hdec.
    destruct (Z.leb_spec (exp * 1000000) (T + 31 * 60 * 1000000));
      [reflexivity | subst expire; lia].
Qed.

(** A token issued to the administrator at 1000.7 s: its expiry is
    stored as 2800 s; it is read 0.1 s before and exactly at that
    second. *)
Lemma access_token_lifetime_witness :
  (2799900000 < seconds_of (1000700000 + 30 * 60 * 1000000) * 1000000
   /\ @decode_token plain_jwt "s3cret" "HS256"
        (@create_access_token plain_jwt "s3cret" "HS256"
           {["sub" := JStr "root"]} 1000700000) 2799900000
      = inr (<["exp" := JInt 2800]> {["sub" := JStr "root"]}))
  /\ (seconds_of (1000700000 + 30 * 60 * 1000000) * 1000000 <= 2800000000
      /\ @decode_token plain_jwt "s3cret" "HS256"
           (@create_access_token plain_jwt "s3cret" "HS256"
              {["sub" := JStr "root"]} 1000700000) 2800000000
         = inl ExpiredSignatureError).
Proof.
  split.
  - split; [vm_compute; reflexivity |].
    destruct (@access_token_lifetime plain_jwt "s3cret" "HS256" "root"
                1000700000 2799900000) as (_ & _ & _ & _ & Hvalid & _).
    apply Hvalid. vm_compute. reflexivity.
  - split; [vm_compute; discriminate |].
    destruct (@access_token_lifetime plain_jwt "s3cret" "HS256" "root"
                1000700000 2800000000) as (_ & _ & _ & _ & _ & Hexpired & _).
    apply Hexpired. vm_compute. discriminate.
Defined.

(** C4, as the claim has it, fails on the code: a token issued at
    1000.7 s is refused at 2800.2 s, half a second before thirty minutes
    have passed, because its expiry is stored as 2800 s. *)
Lemma access_token_expires_within_the_last_second :
  ~ (forall (jwt : JwtLib) (key alg subject : string) (T t : time),
        t < T + 30 * 60 * 1000000 ->
        exists payload,
          @decode_token jwt key alg
            (@create_access_token jwt key alg {["sub" := JStr subject]} T) t
          = inr payload
          /\ payload !! "sub" = Some (JStr subject)).
Proof.
  intros Hclaim.
  destruct (Hclaim plain_jwt "s3cret" "HS256" "root" 1000700000 2800200000
              ltac:(lia))
    as (payload & Hdec & _).
  rewrite decode_token_issued in Hdec.
  vm_compute in Hdec. discriminate Hdec.
Qed.

(** C5. A request that presents a token which decodes successfully (valid
    signature, not expired) and whose subject names a user stored with
    [disabled == True] is rejected by the guard of every protected
    endpoint with [HTTPException(400)]: the endpoint's body does not run,
    no effect is performed and the state is left as it was but for the
    one clock reading taken to check the expiry. *)
Theorem disabled_user_is_rejected :
  forall `{JwtLib} (clock : nat -> time) (key alg : string) (A : Type)
         (endpoint : UserInDB.t -> M A) (tok : token) (s : state)
         (payload : gmap string jwt_value) (username : string)
         (user : UserInDB.t),
    decode_token key alg tok (clock (ticks s)) = inr payload ->
    payload !! "sub" = Some (JStr username) ->
    db s !! username = Some user ->
    UserInDB.disabled user = Some true ->
    protected clock key alg endpoint tok s =
      (inl (HTTPException 400 "无效用户"),
       mkState (db s) (chatHistory s) (S (ticks s)), []).
Proof.
  intros lib clock key alg A endpoint tok s payload username user
    Hdec Hsub Hlook Hdis.
  unfold protected, get_current_user. simpl.
  rewrite (decode_token_verifies _ _ _ _ _ Hdec). simpl.
  unfold bind, now. simpl.
  rewrite Hdec, Hsub. unfold bind, get_db, UserDAO.get_user. simpl.
  rewrite Hlook. unfold ret, get_current_active_user. rewrite Hdis. simpl.
  reflexivity.
Qed.

Lemma disabled_user_is_rejected_witness :
  @protected plain_jwt (fun _ => 60) "s3cret" "HS256" _
    get_user_history
    (@create_access_token plain_jwt "s3cret" "HS256" {["sub" := JStr "bob"]} 0)
    (mkState users_with_disabled_bob ∅ 0)
  = (inl (HTTPException 400 "无效用户"),
     mkState users_with_disabled_bob ∅ 1, []).
Proof.
  apply (@disabled_user_is_rejected plain_jwt (fun _ => 60) "s3cret" "HS256" _
           get_user_history _ (mkState users_with_disabled_bob ∅ 0)
           (<["exp" := JInt (seconds_of (0 + 30 * 60 * 1000000))]>
              {["sub" := JStr "bob"]})
           "bob"
           (UserInDB.mk "bob" None (Some "Bob") (Some true) "$2b$12$digest")).
  - rewrite (@decode_token_issued plain_jwt). reflexivity.
  - reflexivity.
  - reflexivity.
  - reflexivity.
Defined.

(* ===================================================================== *)
(** * Strings and fragments                                               *)
(* ===================================================================== *)

Lemma append_cons (a : Ascii.ascii) (s1 s2 : string) :
  String a s1 +:+ s2 = String a (s1 +:+ s2).
Proof. reflexivity. Qed.

Lemma append_empty_l (s : string) : "" +:+ s = s.
Proof. reflexivity. Qed.

Lemma append_empty_r (s : string) : s +:+ "" = s.
Proof.
  induction s as [| a s IH]; [reflexivity |].
  by rewrite append_cons, IH.
Qed.

Lemma append_assoc (s1 s2 s3 : string) :
  (s1 +:+ s2) +:+ s3 = s1 +:+ (s2 +:+ s3).
Proof.
  induction s1 as [| a s1 IH]; [reflexivity |].
  by rewrite !append_cons, IH.
Qed.

Lemma truthy_append_l (s1 s2 : string) :
  truthy s1 = true -> truthy (s1 +:+ s2) = true.
Proof. destruct s1; [discriminate | reflexivity]. Qed.

Lemma delta_content_truthy (chunk : Chunk.t) (c : string) :
  delta_content chunk = Some c -> truthy c = true.
Proof.
  unfold delta_content.
  destruct (Chunk.choices chunk) as [[| [content |] ?] |]; try discriminate.
  destruct (truthy content) eqn:Ht; [| discriminate].
  by intros [= <-].
Qed.

Lemma fragments_truthy (chunks : list Chunk.t) :
  Forall (fun c => truthy c = true) (fragments chunks).
Proof.
  induction chunks as [| chunk chunks IH]; [constructor |].
  unfold fragments in *. simpl.
  destruct (delta_content chunk) as [c |] eqn:Hc; [| exact IH].
  constructor; [by eapply delta_content_truthy | exact IH].
Qed.

Lemma truthy_join (chunks : list Chunk.t) :
  truthy (join (fragments chunks)) = negb (bool_decide (fragments chunks = [])).
Proof.
  pose proof (fragments_truthy chunks) as Hall.
  destruct (fragments chunks) as [| c rest]; [reflexivity |].
  inversion Hall as [| ? ? Hc _]; subst.
  simpl. by apply truthy_append_l.
Qed.

Lemma events_app (tr1 tr2 : list effect) :
  events (tr1 ++ tr2) = events tr1 ++ events tr2.
Proof. apply omap_app. Qed.

Lemma persisted_app (tr1 tr2 : list effect) :
  persisted (tr1 ++ tr2) = persisted tr1 ++ persisted tr2.
Proof. apply omap_app. Qed.

Lemma events_relayed clock m t contents :
  omap fragment_of (events (relayed clock m t contents))
  = map (fun c => (c, false)) contents.
Proof.
  revert t. induction contents as [| c rest IH]; intros t; [reflexivity |].
  simpl. unfold events in *. simpl. f_equal. apply IH.
Qed.

Lemma length_events_relayed clock m t contents :
  length (events (relayed clock m t contents)) = length contents.
Proof.
  revert t. induction contents as [| c rest IH]; intros t; [reflexivity |].
  unfold events in *. simpl. f_equal. apply IH.
Qed.

Lemma persisted_relayed clock m t contents :
  persisted (relayed clock m t contents) = [].
Proof.
  revert t. induction contents as [| c rest IH]; intros t; [reflexivity |].
  unfold persisted in *. simpl. apply IH.
Qed.

(* ===================================================================== *)
(** * The streaming relay                                                 *)
(* ===================================================================== *)

Lemma model_name_given (request : ChatRequest.t) (m : string) :
  ChatRequest.model request = Some m -> truthy m = true ->
  model_name request = Some m.
Proof. intros Hm Ht. unfold model_name. by rewrite Hm, Ht. Qed.

Lemma model_or_default_spec (request : ChatRequest.t) (s : state) :
  model_or_default request s =
    (match model_name request with
     | Some m => inr m
     | None => inl (AttributeError "DashScopeConfig" "MODEL_NAME")
     end, s, []).
Proof.
  unfold model_or_default, model_name.
  destruct (ChatRequest.model request) as [m |]; [| reflexivity].
  destruct (truthy m); reflexivity.
Qed.

(** The loop relays every content-bearing chunk, in order, and ends with
    the accumulated answer or with the failure of the stream. *)
Lemma for_chunk_in_stream_spec clock request m chunks failure acc s :
  model_name request = Some m ->
  for_chunk_in_stream clock request chunks failure acc s =
    (match failure with
     | Some message => inl (APIError message)
     | None => inr (acc +:+ join (fragments chunks))
     end,
     mkState (db s) (chatHistory s) (ticks s + length (fragments chunks))%nat,
     relayed clock m (ticks s) (fragments chunks)).
Proof.
  intros Hm. revert acc s.
  induction chunks as [| chunk chunks IH]; intros acc s.
  - simpl. rewrite append_empty_r, Nat.add_0_r.
    destruct s, failure; reflexivity.
  - simpl. unfold fragments in *. simpl.
    destruct (delta_content chunk) as [c |] eqn:Hc; [| apply IH].
    unfold bind at 1. rewrite model_or_default_spec, Hm.
    unfold bind at 1. simpl.
    unfold bind at 1. simpl.
    unfold bind at 1. simpl.
    rewrite IH. simpl.
    rewrite append_assoc, Nat.add_succ_r.
    destruct failure; reflexivity.
Qed.

Lemma alter_present {A} (f : A -> A) (m : gmap string A) (k : string) (x : A) :
  m !! k = Some x -> alter f k m = <[k := f x]> m.
Proof.
  intros Hk. apply map_eq. intros j.
  rewrite lookup_alter, lookup_insert.
  case_decide; [subst; by rewrite Hk | reflexivity].
Qed.

(** The generator, case by case. *)

Lemma generate_without_model clock request username up s :
  model_name request = None ->
  generate_stream_response clock request username up s =
    (inr tt, mkState (db s) (chatHistory s) (S (ticks s)),
     [Emit (error_response
              (str (AttributeError "DashScopeConfig" "MODEL_NAME")) true
              (clock (ticks s)))]).
Proof.
  intros Hm. unfold generate_stream_response, try_except, bind.
  rewrite model_or_default_spec, Hm. reflexivity.
Qed.

Lemma generate_create_raises clock request username message m s :
  model_name request = Some m ->
  generate_stream_response clock request username (StreamRaises message) s =
    (inr tt, mkState (db s) (chatHistory s) (S (ticks s)),
     [Call (api_call request m true);
      Emit (error_response message true (clock (ticks s)))]).
Proof.
  intros Hm. unfold generate_stream_response, try_except, bind.
  rewrite model_or_default_spec, Hm. reflexivity.
Qed.

Lemma generate_stream_fails clock request username chunks message m s :
  model_name request = Some m ->
  generate_stream_response clock request username
    (Stream chunks (Some message)) s =
    (inr tt,
     mkState (db s) (chatHistory s)
       (S (ticks s + length (fragments chunks))),
     Call (api_call request m true)
       :: relayed clock m (ticks s) (fragments chunks)
       ++ [Emit (error_response message true
                   (clock (ticks s + length (fragments chunks))%nat))]).
Proof.
  intros Hm. unfold generate_stream_response, try_except, bind.
  rewrite model_or_default_spec, Hm. simpl.
  rewrite (for_chunk_in_stream_spec clock request m) by exact Hm.
  reflexivity.
Qed.

Lemma generate_stream_silent clock request username chunks m s :
  model_name request = Some m ->
  fragments chunks = [] ->
  generate_stream_response clock request username (Stream chunks None) s =
    (inr tt, s, [Call (api_call request m true)]).
Proof.
  intros Hm Hnone. unfold generate_stream_response, try_except, bind.
  rewrite model_or_default_spec, Hm. simpl.
  rewrite (for_chunk_in_stream_spec clock request m) by exact Hm.
  rewrite Hnone. simpl. rewrite Nat.add_0_r. by destruct s.
Qed.

Lemma generate_stream_completes clock request username chunks m s history :
  model_name request = Some m ->
  fragments chunks <> [] ->
  chatHistory s !! username = Some history ->
  generate_stream_response clock request username (Stream chunks None) s =
    (inr tt,
     mkState (db s)
       (<[username :=
            history ++
              [ChatMessage.mk "assistant" (join (fragments chunks))
                 (Some (clock (S (ticks s + length (fragments chunks)))))]]>
          (chatHistory s))
       (S (S (ticks s + length (fragments chunks)))),
     Call (api_call request m true)
       :: relayed clock m (ticks s) (fragments chunks)
       ++ [Persist username
             (ChatMessage.mk "assistant" (join (fragments chunks))
                (Some (clock (S (ticks s + length (fragments chunks))))));
           Emit (StreamResponse "" true m
                   (clock (ticks s + length (fragments chunks))%nat))]).
Proof.
  intros Hm Hsome Hlog. unfold generate_stream_response, try_except, bind.
  rewrite model_or_default_spec, Hm. simpl.
  rewrite (for_chunk_in_stream_spec clock request m) by exact Hm.
  rewrite append_empty_l, truthy_join.
  rewrite bool_decide_eq_false_2 by exact Hsome. simpl.
  rewrite model_or_default_spec, Hm. simpl.
  unfold history_lookup. simpl. rewrite Hlog. simpl.
  rewrite (alter_present _ _ _ _ Hlog). reflexivity.
Qed.

Lemma generate_stream_without_log clock request username chunks m s :
  model_name request = Some m ->
  fragments chunks <> [] ->
  chatHistory s !! username = None ->
  generate_stream_response clock request username (Stream chunks None) s =
    (inr tt,
     mkState (db s) (chatHistory s)
       (S (S (ticks s + length (fragments chunks)))),
     Call (api_call request m true)
       :: relayed clock m (ticks s) (fragments chunks)
       ++ [Emit (error_response (str (KeyError username)) true
                   (clock (S (ticks s + length (fragments chunks)))))]).
Proof.
  intros Hm Hsome Hlog. unfold generate_stream_response, try_except, bind.
  rewrite model_or_default_spec, Hm. simpl.
  rewrite (for_chunk_in_stream_spec clock request m) by exact Hm.
  rewrite append_empty_l, truthy_join.
  rewrite bool_decide_eq_false_2 by exact Hsome. simpl.
  rewrite model_or_default_spec, Hm. simpl.
  unfold history_lookup. simpl. rewrite Hlog. simpl.
  by rewrite app_nil_r.
Qed.

Lemma no_error_in_relayed clock m t contents :
  filter (fun ev => is_error_event ev = true)
    (events (relayed clock m t contents)) = [].
Proof.
  revert t. induction contents as [| c rest IH]; intros t; [reflexivity |].
  unfold events in *. simpl. apply IH.
Qed.

Lemma events_cons_call call tr : events (Call call :: tr) = events tr.
Proof. reflexivity. Qed.

Lemma persisted_cons_call call tr : persisted (Call call :: tr) = persisted tr.
Proof. reflexivity. Qed.

(** An assistant message is written by the generator only when the
    upstream stream ran to its end. *)
Lemma generate_persists_only_completed clock request username up s r s' tr :
  generate_stream_response clock request username up s = (r, s', tr) ->
  persisted tr <> [] ->
  exists chunks t,
    up = Stream chunks None
    /\ persisted tr =
         [ChatMessage.mk "assistant" (join (fragments chunks)) (Some t)].
Proof.
  intros Hrun Hp.
  destruct (model_name request) as [m |] eqn:Hm.
  2:{ rewrite generate_without_model in Hrun by exact Hm.
      injection Hrun as _ _ <-. by destruct Hp. }
  destruct up as [message | chunks [message |]].
  - rewrite (generate_create_raises _ _ _ _ m) in Hrun by exact Hm.
    injection Hrun as _ _ <-. by destruct Hp.
  - rewrite (generate_stream_fails _ _ _ _ _ m) in Hrun by exact Hm.
    injection Hrun as _ _ <-.
    rewrite persisted_cons_call, persisted_app, persisted_relayed in Hp.
    by destruct Hp.
  - destruct (decide (fragments chunks = [])) as [Hnone | Hsome].
    { rewrite (generate_stream_silent _ _ _ _ m) in Hrun by assumption.
      injection Hrun as _ _ <-. by destruct Hp. }
    destruct (chatHistory s !! username) as [history |] eqn:Hlog.
    + rewrite (generate_stream_completes _ _ _ _ m _ history) in Hrun
        by assumption.
      injection Hrun as _ _ <-.
      rewrite persisted_cons_call, persisted_app, persisted_relayed.
      eexists _, _. split; reflexivity.
    + rewrite (generate_stream_without_log _ _ _ _ m) in Hrun by assumption.
      injection Hrun as _ _ <-.
      rewrite persisted_cons_call, persisted_app, persisted_relayed in Hp.
      by destruct Hp.
Qed.

(** C1. When the upstream stream hands out at least one content-bearing
    fragment and then ends normally, the generator first makes the
    upstream call, then emits one [finished: false] event per fragment
    with that fragment's content, in the order of the stream, then appends
    to the user's log one assistant message whose content is the
    concatenation of the fragments, and last emits one [finished: true]
    event with empty content. Nothing else is emitted or written. *)
Theorem relay_of_completed_stream :
  forall (clock : nat -> time) (request : ChatRequest.t) (username : string)
         (chunks : list Chunk.t) (m : string)
         (history : list ChatMessage.t) (s : state),
    ChatRequest.model request = Some m ->
    truthy m = true ->
    fragments chunks <> [] ->
    chatHistory s !! username = Some history ->
    let contents := fragments chunks in
    let n := length contents in
    let answer :=
      ChatMessage.mk "assistant" (join contents)
        (Some (clock (S (ticks s + n)))) in
    let sentinel := StreamResponse "" true m (clock (ticks s + n)%nat) in
    exists s' tr,
      generate_stream_response clock request username (Stream chunks None) s
        = (inr tt, s', tr)
      /\ tr = Call (api_call request m true)
                :: relayed clock m (ticks s) contents
                ++ [Persist username answer; Emit sentinel]
      /\ omap fragment_of (events tr)
         = map (fun c => (c, false)) contents ++ [("", true)]
      /\ length (events tr) = S n
      /\ persisted tr = [answer]
      /\ chatHistory s' = <[username := history ++ [answer]]> (chatHistory s)
      /\ db s' = db s.
Proof.
  intros clock request username chunks m history s Hm Ht Hsome Hlog
    contents n answer sentinel.
  pose proof (model_name_given _ _ Hm Ht) as Hname.
  eexists _, _. split.
  { apply (generate_stream_completes _ _ _ _ m _ history); assumption. }
  fold contents n answer sentinel.
  split; [reflexivity |].
  rewrite events_cons_call, persisted_cons_call, events_app, persisted_app.
  rewrite persisted_relayed, omap_app, length_app.
  rewrite events_relayed, length_events_relayed.
  repeat split.
  simpl. fold n. lia.
Qed.

(** Two fragments, a usage chunk without choices, and the end of the
    stream, relayed to a user whose log holds the question. *)
Lemma relay_of_completed_stream_witness :
  let question := ChatMessage.mk "user" "Hello" (Some 0) in
  exists s',
    generate_stream_response (fun n => Z.of_nat n)
      (ChatRequest.defaults [question]) "root"
      (Stream [Chunk.mk (Some [Some "Hi"]); Chunk.mk (Some [Some " there"]);
               Chunk.mk (Some [])] None)
      (mkState fake_users_db {["root" := [question]]} 1)
    = (inr tt, s',
       [Call (api_call (ChatRequest.defaults [question]) "qwen3-max" true);
        Emit (StreamResponse "Hi" false "qwen3-max" 1); Sleep;
        Emit (StreamResponse " there" false "qwen3-max" 2); Sleep;
        Persist "root" (ChatMessage.mk "assistant" "Hi there" (Some 4));
        Emit (StreamResponse "" true "qwen3-max" 3)])
    /\ chatHistory s' !! "root"
       = Some [question; ChatMessage.mk "assistant" "Hi there" (Some 4)].
Proof.
  intros question.
  destruct (relay_of_completed_stream (fun n => Z.of_nat n)
              (ChatRequest.defaults [question]) "root"
              [Chunk.mk (Some [Some "Hi"]); Chunk.mk (Some [Some " there"]);
               Chunk.mk (Some [])]
              "qwen3-max" [question]
              (mkState fake_users_db {["root" := [question]]} 1)
              eq_refl eq_refl ltac:(discriminate) eq_refl)
    as (s' & tr & Hrun & Htr & _ & _ & _ & Hlog & _).
  exists s'. split.
  - rewrite Hrun, Htr. reflexivity.
  - rewrite Hlog. apply lookup_insert_eq.
Defined.

(** C2. When the upstream stream raises while it is iterated, after any
    number of chunks, the generator emits the fragments received so far
    and then exactly one error event, which carries the description of
    the error, [finished: true] and a timestamp; it writes no assistant
    message, so the conversation logs are as they were. The same holds
    when the call that opens the stream raises. Hence, whatever the
    provider does, an assistant message written by the generator belongs
    to a stream that ended normally, and holds that stream's full answer. *)
Theorem relay_of_failed_stream :
  forall (clock : nat -> time) (request : ChatRequest.t) (username : string)
         (chunks : list Chunk.t) (message m : string) (s : state),
    ChatRequest.model request = Some m ->
    truthy m = true ->
    let contents := fragments chunks in
    let n := length contents in
    let failed := error_response message true (clock (ticks s + n)%nat) in
    (exists s' tr,
        generate_stream_response clock request username
          (Stream chunks (Some message)) s = (inr tt, s', tr)
        /\ tr = Call (api_call request m true)
                  :: relayed clock m (ticks s) contents ++ [Emit failed]
        /\ filter (fun ev => is_error_event ev = true) (events tr) = [failed]
        /\ omap fragment_of (events tr) = map (fun c => (c, false)) contents
        /\ persisted tr = []
        /\ chatHistory s' = chatHistory s
        /\ db s' = db s)
    /\ (exists s',
           generate_stream_response clock request username
             (StreamRaises message) s
           = (inr tt, s',
              [Call (api_call request m true);
               Emit (error_response message true (clock (ticks s)))])
           /\ chatHistory s' = chatHistory s)
    /\ (forall up s0 r s' tr,
           generate_stream_response clock request username up s0 = (r, s', tr) ->
           persisted tr <> [] ->
           exists chunks' t,
             up = Stream chunks' None
             /\ persisted tr =
                  [ChatMessage.mk "assistant" (join (fragments chunks'))
                     (Some t)]).
Proof.
  intros clock request username chunks message m s Hm Ht contents n failed.
  pose proof (model_name_given _ _ Hm Ht) as Hname.
  split; [| split].
  - eexists _, _. split.
    { apply (generate_stream_fails _ _ _ _ _ m). exact Hname. }
    fold contents n failed.
    split; [reflexivity |].
    rewrite events_cons_call, persisted_cons_call, events_app, persisted_app.
    rewrite persisted_relayed, omap_app, filter_app.
    rewrite events_relayed, no_error_in_relayed.
    repeat split. simpl. by rewrite app_nil_r.
  - eexists. split.
    { apply (generate_create_raises _ _ _ _ m). exact Hname. }
    reflexivity.
  - intros up s0 r s' tr. apply generate_persists_only_completed.
Qed.

(** The stream of the specification's example: one fragment, then an
    error. *)
Lemma relay_of_failed_stream_witness :
  let question := ChatMessage.mk "user" "Hello" (Some 0) in
  exists s',
    generate_stream_response (fun n => Z.of_nat n)
      (ChatRequest.defaults [question]) "root"
      (Stream [Chunk.mk (Some [Some "Hi"])] (Some "connection reset"))
      (mkState fake_users_db {["root" := [question]]} 1)
    = (inr tt, s',
       [Call (api_call (ChatRequest.defaults [question]) "qwen3-max" true);
        Emit (StreamResponse "Hi" false "qwen3-max" 1); Sleep;
        Emit (error_response "connection reset" true 2)])
    /\ chatHistory s' !! "root" = Some [question].
Proof.
  intros question.
  destruct (relay_of_failed_stream (fun n => Z.of_nat n)
              (ChatRequest.defaults [question]) "root"
              [Chunk.mk (Some [Some "Hi"])] "connection reset" "qwen3-max"
              (mkState fake_users_db {["root" := [question]]} 1)
              eq_refl eq_refl)
    as [(s' & tr & Hrun & Htr & _ & _ & _ & Hlog & _) _].
  exists s'. split.
  - rewrite Hrun, Htr. reflexivity.
  - rewrite Hlog. reflexivity.
Defined.

(** C2, as the claim has it, fails on the code in its last clause: the
    log may hold an assistant message that belongs to no completed
    upstream call. The endpoint stores the caller's turn with the role
    the client sent; here the client sends a turn with the role
    [assistant], the stream raises after one fragment, and the log ends
    up holding that message although the only upstream call failed. *)
Lemma failed_stream_leaves_assistant_message :
  let root :=
    UserInDB.mk "root" (Some "root@163.com") (Some "Administrator")
      (Some false) "$2b$12$digest" in
  let forged := ChatMessage.mk "assistant" "As I said before" None in
  let request :=
    ChatRequest.mk [forged] (Some "qwen3-max") None None (Some true) in
  let up :=
    Upstream.mk (Stream [Chunk.mk (Some [Some "Hi"])] (Some "boom"))
      (CompletionRaises "unused") in
  exists s',
    post_chat (fun n => Z.of_nat n) request up root (mkState fake_users_db ∅ 0)
    = (inr None, s',
       [Persist "root" (ChatMessage.mk "assistant" "As I said before" (Some 0));
        Call (api_call request "qwen3-max" true);
        Emit (StreamResponse "Hi" false "qwen3-max" 1); Sleep;
        Emit (error_response "boom" true 2)])
    /\ chatHistory s' !! "root"
       = Some [ChatMessage.mk "assistant" "As I said before" (Some 0)].
Proof.
  intros root forged request up. eexists.
  split; [reflexivity |]. vm_compute. reflexivity.
Qed.

(** C10. When the upstream stream ends normally without a single
    content-bearing fragment, the generator makes the upstream call and
    nothing more: it emits no event, not even the [finished: true] one,
    writes no assistant message and leaves the state as it was. *)
Theorem relay_of_silent_stream :
  forall (clock : nat -> time) (request : ChatRequest.t) (username : string)
         (chunks : list Chunk.t) (m : string) (s : state),
    ChatRequest.model request = Some m ->
    truthy m = true ->
    fragments chunks = [] ->
    exists tr,
      generate_stream_response clock request username (Stream chunks None) s
        = (inr tt, s, tr)
      /\ tr = [Call (api_call request m true)]
      /\ events tr = []
      /\ persisted tr = [].
Proof.
  intros clock request username chunks m s Hm Ht Hnone.
  eexists. split.
  { apply (generate_stream_silent _ _ _ _ m); [| exact Hnone].
    by apply model_name_given. }
  repeat split.
Qed.

(** Chunks without choices, with no choice list, with an empty content
    and with no content, then the end of the stream. *)
Lemma relay_of_silent_stream_witness :
  let question := ChatMessage.mk "user" "Hello" (Some 0) in
  let s := mkState fake_users_db {["root" := [question]]} 1 in
  generate_stream_response (fun n => Z.of_nat n)
    (ChatRequest.defaults [question]) "root"
    (Stream [Chunk.mk (Some []); Chunk.mk None; Chunk.mk (Some [Some ""]);
             Chunk.mk (Some [None])] None) s
  = (inr tt, s,
     [Call (api_call (ChatRequest.defaults [question]) "qwen3-max" true)]).
Proof.
  intros question s.
  destruct (relay_of_silent_stream (fun n => Z.of_nat n)
              (ChatRequest.defaults [question]) "root"
              [Chunk.mk (Some []); Chunk.mk None; Chunk.mk (Some [Some ""]);
               Chunk.mk (Some [None])] "qwen3-max" s
              eq_refl eq_refl eq_refl)
    as (tr & Hrun & Htr & _).
  rewrite Hrun, Htr. reflexivity.
Defined.

Lemma init_history_spec username s :
  init_history username s =
    (inr tt,
     mkState (db s)
       (<[username := default [] (chatHistory s !! username)]> (chatHistory s))
       (ticks s), []).
Proof.
  unfold init_history, bind, history_has, history_set, ret.
  destruct (chatHistory s !! username) as [l |] eqn:Hl; simpl.
  - rewrite insert_id by exact Hl. by destruct s.
  - reflexivity.
Qed.

Lemma append_history_spec username msg history s :
  chatHistory s !! username = Some history ->
  append_history username msg s =
    (inr tt,
     mkState (db s) (<[username := history ++ [msg]]> (chatHistory s)) (ticks s),
     [Persist username msg]).
Proof.
  intros Hl. unfold append_history, bind, history_lookup, history_push.
  rewrite Hl. simpl. by rewrite (alter_present _ _ _ _ Hl).
Qed.

Lemma chat_streaming clock request up current_user last_message s :
  last (ChatRequest.messages request) = Some last_message ->
  truthy_flag (ChatRequest.stream request) = true ->
  let username := UserInDB.username current_user in
  let user_message :=
    ChatMessage.mk (ChatMessage.role last_message)
      (ChatMessage.content last_message) (Some (clock (ticks s))) in
  chat clock request up current_user s =
    (inr (StreamingResponse
            (generate_stream_response clock request username
               (Upstream.streaming up))
            "text/plain"
            [("Cache-Control", "no-cache"); ("Connection", "keep-alive");
             ("Content-Type", "text/event-stream")]),
     mkState (db s)
       (<[username := default [] (chatHistory s !! username) ++ [user_message]]>
          (chatHistory s))
       (S (ticks s)),
     [Persist username user_message]).
Proof.
  intros Hlast Hstream username user_message.
  unfold chat, except_http, try_except. fold username.
  unfold bind at 1. unfold bind at 1. rewrite init_history_spec. simpl.
  unfold bind at 1. rewrite Hlast. simpl.
  unfold bind at 1. simpl.
  unfold bind at 1. 
  erewrite append_history_spec by apply lookup_insert_eq.
  simpl. rewrite Hstream. simpl. rewrite insert_insert_eq. reflexivity.
Qed.

Lemma chat_single clock request up current_user last_message s :
  last (ChatRequest.messages request) = Some last_message ->
  truthy_flag (ChatRequest.stream request) = false ->
  let username := UserInDB.username current_user in
  let old := default [] (chatHistory s !! username) in
  let user_message :=
    ChatMessage.mk (ChatMessage.role last_message)
      (ChatMessage.content last_message) (Some (clock (ticks s))) in
  let s1 :=
    mkState (db s) (<[username := old ++ [user_message]]> (chatHistory s))
      (S (ticks s)) in
  chat clock request up current_user s =
    match model_name request with
    | None =>
        (inl (HTTPException 500
                ("处理聊天请求时发生错误: " +:+
                 str (AttributeError "DashScopeConfig" "MODEL_NAME"))),
         s1, [Persist username user_message])
    | Some m =>
        match Upstream.single up with
        | CompletionRaises message =>
            (inl (HTTPException 500
                    ("处理聊天请求时发生错误: " +:+ message)),
             s1, [Persist username user_message;
                  Call (api_call request m false)])
        | Completed response =>
            match Completion.choices response with
            | Some (choice :: _) =>
                let assistant_message :=
                  ChatMessage.mk "assistant"
                    (if truthy_opt choice then default "" choice else "")
                    (Some (clock (S (ticks s)))) in
                (inr (Complete (ChatResponse.mk assistant_message
                                  (Completion.model response)
                                  (Completion.usage response))),
                 mkState (db s)
                   (<[username := old ++ [user_message; assistant_message]]>
                      (chatHistory s))
                   (S (S (ticks s))),
                 [Persist username user_message;
                  Call (api_call request m false);
                  Persist username assistant_message])
            | _ =>
                (inl (HTTPException 500 "AI模型返回了空响应"), s1,
                 [Persist username user_message;
                  Call (api_call request m false)])
            end
        end
    end.
Proof.
  intros Hlast Hstream username old user_message s1.
  unfold chat, except_http, try_except. fold username.
  unfold bind at 1. unfold bind at 1. rewrite init_history_spec. simpl.
  unfold bind at 1. rewrite Hlast. simpl.
  unfold bind at 1. simpl.
  unfold bind at 1.
  erewrite append_history_spec by apply lookup_insert_eq.
  simpl. rewrite Hstream. simpl. rewrite insert_insert_eq.
  unfold bind at 1. rewrite model_or_default_spec.
  destruct (model_name request) as [m |]; [| reflexivity].
  simpl. unfold create_completion, bind, perform.
  destruct (Upstream.single up) as [message | response]; [reflexivity |].
  simpl.
  destruct (Completion.choices response) as [[| choice ?] |];
    [reflexivity | | reflexivity].
  simpl. erewrite append_history_spec by apply lookup_insert_eq.
  simpl. rewrite insert_insert_eq, <- app_assoc. reflexivity.
Qed.

Lemma content_or_empty (choice : option string) :
  (if truthy_opt choice then default "" choice else "") = default "" choice.
Proof.
  destruct choice as [c |]; [| reflexivity]. simpl.
  destruct c; reflexivity.
Qed.



(** A whole streaming request whose stream ends normally with content:
    the question is stored, then the answer is relayed and stored. The
    log the generator appends to is the one [chat] has just written. *)
Lemma post_chat_streams_answer clock request up current_user last_message m
    chunks s :
  last (ChatRequest.messages request) = Some last_message ->
  truthy_flag (ChatRequest.stream request) = true ->
  model_name request = Some m ->
  Upstream.streaming up = Stream chunks None ->
  fragments chunks <> [] ->
  let username := UserInDB.username current_user in
  let old := default [] (chatHistory s !! username) in
  let n := length (fragments chunks) in
  let user_message :=
    ChatMessage.mk (ChatMessage.role last_message)
      (ChatMessage.content last_message) (Some (clock (ticks s))) in
  let answer :=
    ChatMessage.mk "assistant" (join (fragments chunks))
      (Some (clock (S (S (ticks s) + n)))) in
  exists s',
    post_chat clock request up current_user s =
      (inr None, s',
       Persist username user_message
         :: Call (api_call request m true)
         :: relayed clock m (S (ticks s)) (fragments chunks)
         ++ [Persist username answer;
             Emit (StreamResponse "" true m (clock (S (ticks s) + n)%nat))])
    /\ chatHistory s' !! username = Some (old ++ [user_message; answer]).
Proof.
  intros Hlast Hstream Hm Hup Hsome username old n user_message answer.
  unfold post_chat, bind.
  rewrite (chat_streaming _ _ _ _ last_message) by assumption.
  fold username old user_message. unfold send, bind. rewrite Hup.
  rewrite (generate_stream_completes _ _ _ _ m _ (old ++ [user_message]))
    by (try assumption; apply lookup_insert_eq).
  simpl. fold n answer. rewrite app_nil_r.
  eexists. split; [reflexivity |].
  simpl. by rewrite lookup_insert_eq, <- app_assoc.
Qed.




Lemma empty_completion_detail_distinct (e : exn) :
  HTTPException 500 "AI模型返回了空响应"
  <> HTTPException 500 ("处理聊天请求时发生错误: " +:+ str e).
Proof. intros Heq. injection Heq as Heq. discriminate Heq. Qed.

(** C6. A non-streaming chat request that reaches the provider and gets a
    response without choices (an empty list, or none at all) fails with
    [HTTPException(500, "AI模型返回了空响应")]: no answer is returned, the
    only message written to the log is the user's, and the detail differs
    from the one of every error wrapped by the final [except] clause. *)
Theorem chat_empty_completion :
  forall (clock : nat -> time) (request : ChatRequest.t) (up : Upstream.t)
         (current_user : UserInDB.t) (last_message : ChatMessage.t)
         (m : string) (response : Completion.t) (s : state),
    last (ChatRequest.messages request) = Some last_message ->
    ChatRequest.model request = Some m ->
    truthy m = true ->
    truthy_flag (ChatRequest.stream request) = false ->
    Upstream.single up = Completed response ->
    truthy_list (Completion.choices response) = false ->
    let username := UserInDB.username current_user in
    let old := default [] (chatHistory s !! username) in
    let user_message :=
      ChatMessage.mk (ChatMessage.role last_message)
        (ChatMessage.content last_message) (Some (clock (ticks s))) in
    exists s' tr,
      chat clock request up current_user s
        = (inl (HTTPException 500 "AI模型返回了空响应"), s', tr)
      /\ post_chat clock request up current_user s
         = (inl (HTTPException 500 "AI模型返回了空响应"), s', tr)
      /\ tr = [Persist username user_message; Call (api_call request m false)]
      /\ persisted tr = [user_message]
      /\ chatHistory s' !! username = Some (old ++ [user_message])
      /\ (forall e,
             HTTPException 500 "AI模型返回了空响应"
             <> HTTPException 500
                  ("处理聊天请求时发生错误: " +:+ str e)).
Proof.
  intros clock request up current_user last_message m response s
    Hlast Hm Ht Hstream Hup Hnone username old user_message.
  pose proof (chat_single clock request up current_user last_message s
                Hlast Hstream) as Hchat.
  rewrite (model_name_given _ _ Hm Ht), Hup in Hchat.
  fold username old user_message in Hchat.
  assert (Hrun : chat clock request up current_user s =
                 (inl (HTTPException 500 "AI模型返回了空响应"),
                  mkState (db s)
                    (<[username := old ++ [user_message]]> (chatHistory s))
                    (S (ticks s)),
                  [Persist username user_message;
                   Call (api_call request m false)])).
  { rewrite Hchat.
    destruct (Completion.choices response) as [[| choice ?] |];
      [reflexivity | discriminate Hnone | reflexivity]. }
  eexists _, _. split; [exact Hrun |].
  split; [unfold post_chat, bind; by rewrite Hrun |].
  split; [reflexivity |]. split; [reflexivity |].
  split; [apply lookup_insert_eq | apply empty_completion_detail_distinct].
Qed.

(** A provider that answers with an empty list of choices. *)
Lemma chat_empty_completion_witness :
  let root :=
    UserInDB.mk "root" (Some "root@163.com") (Some "Administrator")
      (Some false) "$2b$12$digest" in
  let question := ChatMessage.mk "user" "Hello" None in
  let request := ChatRequest.defaults [question] in
  let up :=
    Upstream.mk (StreamRaises "unused")
      (Completed (Completion.mk (Some []) "qwen3-max" None)) in
  exists s',
    chat (fun n => Z.of_nat n) request up root (mkState fake_users_db ∅ 0)
    = (inl (HTTPException 500 "AI模型返回了空响应"), s',
       [Persist "root" (ChatMessage.mk "user" "Hello" (Some 0));
        Call (api_call request "qwen3-max" false)])
    /\ chatHistory s' !! "root"
       = Some [ChatMessage.mk "user" "Hello" (Some 0)].
Proof.
  intros root question request up.
  destruct (chat_empty_completion (fun n => Z.of_nat n) request up root
              question "qwen3-max" (Completion.mk (Some []) "qwen3-max" None)
              (mkState fake_users_db ∅ 0)
              eq_refl eq_refl eq_refl eq_refl eq_refl eq_refl)
    as (s' & tr & Hrun & _ & Htr & _ & Hlog & _).
  exists s'. split.
  - rewrite Hrun, Htr. reflexivity.
  - exact Hlog.
Defined.

(* ===================================================================== *)
(** * The conversation store                                              *)
(* ===================================================================== *)

Lemma rebuild_messages (history : list ChatMessage.t) :
  map (fun msg =>
         ChatMessage.mk (ChatMessage.role msg) (ChatMessage.content msg)
           (ChatMessage.timestamp msg)) history = history.
Proof.
  induction history as [| [r c t] history IH]; [reflexivity |].
  simpl. by rewrite IH.
Qed.

Lemma get_user_history_spec current_user s :
  get_user_history current_user s =
    (inr (default [] (chatHistory s !! UserInDB.username current_user)), s, []).
Proof.
  unfold get_user_history, bind, history_has, history_lookup, ret.
  destruct (chatHistory s !! UserInDB.username current_user) as [h |] eqn:Hlog;
    simpl; [| reflexivity].
  rewrite Hlog. do 3 f_equal. apply rebuild_messages.
Qed.

Lemma clear_user_history_spec clock current_user s :
  let username := UserInDB.username current_user in
  exists message,
    clear_user_history clock current_user s =
      (inr (Cleared.mk message username
              (length (default [] (chatHistory s !! username)))
              (clock (ticks s))),
       mkState (db s) (delete username (chatHistory s)) (S (ticks s)), []).
Proof.
  intros username.
  unfold clear_user_history, bind, history_has, history_lookup, history_del,
    now, ret.
  fold username.
  destruct (chatHistory s !! username) as [h |] eqn:Hlog; simpl.
  - rewrite Hlog. eexists. reflexivity.
  - eexists. rewrite delete_id by exact Hlog. reflexivity.
Qed.

Lemma append_turn_present username t history s :
  chatHistory s !! username = Some history ->
  append_turn username t s =
    (inr tt,
     mkState (db s) (<[username := history ++ [turn_message t]]> (chatHistory s))
       (ticks s),
     [Persist username (turn_message t)]).
Proof.
  intros Hlog. destruct t as [msg | msg]; simpl.
  - unfold bind. rewrite init_history_spec, Hlog. simpl.
    erewrite append_history_spec by apply lookup_insert_eq.
    simpl. by rewrite insert_insert_eq.
  - by apply append_history_spec.
Qed.

Lemma append_turns_present username turns history s :
  chatHistory s !! username = Some history ->
  append_turns username turns s =
    (inr tt,
     mkState (db s)
       (<[username := history ++ map turn_message turns]> (chatHistory s))
       (ticks s),
     map (fun t => Persist username (turn_message t)) turns).
Proof.
  revert history s. induction turns as [| t turns IH]; intros history s Hlog.
  - simpl. unfold ret. rewrite app_nil_r, insert_id by exact Hlog.
    by destruct s.
  - simpl. unfold bind.
    rewrite (append_turn_present _ _ history) by exact Hlog.
    rewrite (IH (history ++ [turn_message t])) by apply lookup_insert_eq.
    simpl. by rewrite insert_insert_eq, <- app_assoc.
Qed.

Lemma append_user_turn_fresh username msg s :
  chatHistory s !! username = None ->
  append_turn username (UserTurn msg) s =
    (inr tt, mkState (db s) (<[username := [msg]]> (chatHistory s)) (ticks s),
     [Persist username msg]).
Proof.
  intros Hlog. simpl. unfold bind. rewrite init_history_spec, Hlog. simpl.
  erewrite append_history_spec by apply lookup_insert_eq.
  simpl. by rewrite insert_insert_eq.
Qed.

Lemma count_turns (turns : list turn) :
  length (map turn_message turns)
  = (length (List.filter is_user_turn turns)
     + length (List.filter (fun t => negb (is_user_turn t)) turns))%nat.
Proof.
  induction turns as [| [msg | msg] turns IH]; simpl; [reflexivity | |];
    rewrite IH; lia.
Qed.

(** C7. Appending any sequence of [N] user turns and [M] assistant turns
    to a user's log succeeds as soon as the log exists or the sequence
    starts with a user turn, and [GET /history] then returns the old log
    followed by the appended messages in append order: exactly [N + M]
    messages for a user who had no log. A user without a log gets the
    empty list. [DELETE /history] reports the number of messages it
    removed ([0] for a user without a log), and the history read after
    it is empty. *)
Theorem history_keeps_append_order :
  forall (clock : nat -> time) (current_user : UserInDB.t)
         (turns : list turn) (s : state),
    let username := UserInDB.username current_user in
    let old := default [] (chatHistory s !! username) in
    let N := length (List.filter is_user_turn turns) in
    let M := length (List.filter (fun t => negb (is_user_turn t)) turns) in
    match turns with
    | AssistantTurn _ :: _ => is_Some (chatHistory s !! username)
    | _ => True
    end ->
    (exists s1 tr,
        append_turns username turns s = (inr tt, s1, tr)
        /\ persisted tr = map turn_message turns
        /\ get_user_history current_user s1
           = (inr (old ++ map turn_message turns), s1, [])
        /\ length (old ++ map turn_message turns) = (length old + (N + M))%nat
        /\ exists cleared s2,
            clear_user_history clock current_user s1 = (inr cleared, s2, [])
            /\ Cleared.deleted_messages cleared
               = length (old ++ map turn_message turns)
            /\ get_user_history current_user s2 = (inr [], s2, []))
    /\ (chatHistory s !! username = None ->
        old = []
        /\ get_user_history current_user s = (inr [], s, [])
        /\ exists cleared s',
            clear_user_history clock current_user s = (inr cleared, s', [])
            /\ Cleared.deleted_messages cleared = 0%nat).
Proof.
  intros clock current_user turns s username old N M Hstart.
  split.
  - assert (Hrun : exists s1 tr,
               append_turns username turns s = (inr tt, s1, tr)
               /\ persisted tr = map turn_message turns
               /\ chatHistory s1 !! username
                  = (if turns is [] then chatHistory s !! username
                     else Some (old ++ map turn_message turns))).
    { assert (Hp : forall l : list turn,
                 persisted (map (fun t => Persist username (turn_message t)) l)
                 = map turn_message l).
      { induction l as [| t l IH]; [reflexivity |].
        unfold persisted in *. simpl. f_equal. exact IH. }
      destruct (chatHistory s !! username) as [history |] eqn:Hlog.
      - eexists _, _.
        split; [by apply (append_turns_present _ _ history) |].
        split; [apply Hp |]. simpl. rewrite lookup_insert_eq.
        destruct turns; [by rewrite app_nil_r | reflexivity].
      - destruct turns as [| [msg | msg] turns].
        + eexists _, _. split; [reflexivity |]. split; [reflexivity |].
          exact Hlog.
        + cbn [append_turns]. unfold bind.
          rewrite append_user_turn_fresh by exact Hlog.
          rewrite (append_turns_present _ _ [msg]) by apply lookup_insert_eq.
          eexists _, _. split; [reflexivity |].
          split; [apply (Hp (UserTurn msg :: turns)) |].
          simpl. by rewrite insert_insert_eq, lookup_insert_eq.
        + by destruct Hstart. }
    destruct Hrun as (s1 & tr & Hrun & Hp & Hlog1).
    assert (Hread : default [] (chatHistory s1 !! username)
                    = old ++ map turn_message turns).
    { rewrite Hlog1. destruct turns; [by rewrite app_nil_r | reflexivity]. }
    exists s1, tr. split; [exact Hrun |]. split; [exact Hp |].
    split; [rewrite get_user_history_spec; fold username; by rewrite Hread |].
    split; [rewrite length_app, count_turns; reflexivity |].
    destruct (clear_user_history_spec clock current_user s1) as [msg Hclear].
    eexists _, _. split; [exact Hclear |].
    split; [simpl; fold username; by rewrite Hread |].
    rewrite get_user_history_spec. simpl. by rewrite lookup_delete_eq.
  - intros Hlog. unfold old, username in *. rewrite Hlog.
    split; [reflexivity |].
    split; [by rewrite get_user_history_spec, Hlog |].
    destruct (clear_user_history_spec clock current_user s) as [msg Hclear].
    eexists _, _. split; [exact Hclear |].
    simpl. by rewrite Hlog.
Qed.

(** Two exchanges of a user who had no log. *)
Lemma history_keeps_append_order_witness :
  let root :=
    UserInDB.mk "root" (Some "root@163.com") (Some "Administrator")
      (Some false) "$2b$12$digest" in
  let q1 := ChatMessage.mk "user" "Hello" (Some 0) in
  let a1 := ChatMessage.mk "assistant" "Hi there" (Some 1) in
  let q2 := ChatMessage.mk "user" "Bye" (Some 2) in
  exists s1 tr,
    append_turns "root" [UserTurn q1; AssistantTurn a1; UserTurn q2]
      (mkState fake_users_db ∅ 0) = (inr tt, s1, tr)
    /\ get_user_history root s1 = (inr [q1; a1; q2], s1, []).
Proof.
  intros root q1 a1 q2.
  destruct (history_keeps_append_order (fun n => Z.of_nat n) root
              [UserTurn q1; AssistantTurn a1; UserTurn q2]
              (mkState fake_users_db ∅ 0) I)
    as [(s1 & tr & Hrun & _ & Hread & _) _].
  exists s1, tr. split; [exact Hrun | exact Hread].
Defined.

(* ===================================================================== *)
(** * Further properties of the user table                                *)
(* ===================================================================== *)

(** X1. [save_user] followed by [get_user]: the saved record is returned
    as it was given and is the one found under its username, and the
    records under every other key are the ones that were there before. *)
Theorem save_user_then_get_user :
  forall (users : gmap string UserInDB.t) (user : UserInDB.t),
    fst (UserDAO.save_user users user) = user
    /\ UserDAO.get_user (snd (UserDAO.save_user users user))
         (UserInDB.username user) = Some user
    /\ forall other,
        other <> UserInDB.username user ->
        UserDAO.get_user (snd (UserDAO.save_user users user)) other
        = UserDAO.get_user users other.
Proof.
  intros users user. unfold UserDAO.save_user, UserDAO.get_user. simpl.
  split; [reflexivity |]. split; [apply lookup_insert_eq |].
  intros other Hne. by apply lookup_insert_ne.
Qed.

Lemma update_user_info_run user_update current_user s :
  update_user_info user_update current_user s =
    match UserDAO.update_user (db s)
            (UserInDB.set_full_name (UserUpdate.full_name user_update)
               (UserInDB.set_email (UserUpdate.email user_update)
                  current_user)) with
    | inl e => (inl e, s, [])
    | inr (updated_user, users') =>
        (inr updated_user, mkState users' (chatHistory s) (ticks s), [])
    end.
Proof.
  unfold update_user_info, bind, get_db. simpl.
  destruct (UserDAO.update_user _ _) as [e | [updated users']]; reflexivity.
Qed.

(** X2. [PUT /user/update] without an e-mail address, for a caller whose
    record is stored under its username: the record stays under the same
    key, its full name is replaced when the request gives one and kept
    when it gives none, and its username, e-mail, [disabled] flag and
    password digest are unchanged. No other record, and nothing outside
    the user table, is touched. *)
Theorem update_user_info_full_name :
  forall (full_name : option string) (current_user stored : UserInDB.t)
         (s : state),
    keyed_by_username (db s) ->
    db s !! UserInDB.username current_user = Some stored ->
    let updated :=
      UserInDB.mk (UserInDB.username stored) (UserInDB.email stored)
        (match full_name with
         | Some name => Some name
         | None => UserInDB.full_name stored
         end)
        (UserInDB.disabled stored) (UserInDB.hashed_password stored) in
    update_user_info (UserUpdate.mk None full_name) current_user s
    = (inr updated,
       mkState (<[UserInDB.username current_user := updated]> (db s))
         (chatHistory s) (ticks s),
       []).
Proof.
  intros full_name current_user stored s Hk Hlook updated.
  pose proof (Hk _ _ Hlook) as Hname.
  rewrite update_user_info_run.
  unfold UserDAO.update_user, UserDAO.get_user. simpl. rewrite Hlook.
  subst updated. destruct stored as [n e f d h]. simpl in *. subst n.
  destruct full_name; reflexivity.
Qed.

Lemma update_user_info_full_name_witness :
  let root :=
    UserInDB.mk "root" (Some "root@163.com") (Some "Administrator")
      (Some false)
      "$2b$12$jiHSlVYQc72WrfBlB2/vX.70MMYdWpKCkdsKoEajvwMv5x9sHzwdq" in
  let renamed :=
    UserInDB.mk "root" (Some "root@163.com") (Some "Root")
      (Some false)
      "$2b$12$jiHSlVYQc72WrfBlB2/vX.70MMYdWpKCkdsKoEajvwMv5x9sHzwdq" in
  update_user_info (UserUpdate.mk None (Some "Root")) root
    (mkState fake_users_db ∅ 0)
  = (inr renamed, mkState (<["root" := renamed]> fake_users_db) ∅ 0, []).
Proof.
  intros root renamed.
  apply (update_user_info_full_name (Some "Root") root root
           (mkState fake_users_db ∅ 0) fake_users_db_keyed eq_refl).
Defined.

(** X3. [PUT /user/update] with an e-mail address that differs from the
    caller's username: the caller's stored record is left exactly as it
    was, old e-mail and old full name included, and a second record is
    written under the e-mail address as key. That record is named after
    the address and carries the caller's old e-mail, [disabled] flag and
    password digest; whatever was stored under the address before is
    replaced by it. All other records are untouched. *)
Theorem update_user_info_with_email :
  forall (address : string) (full_name : option string)
         (current_user stored : UserInDB.t) (s : state),
    db s !! UserInDB.username current_user = Some stored ->
    address <> UserInDB.username current_user ->
    let written :=
      UserInDB.mk address (UserInDB.email stored)
        (match full_name with
         | Some name => Some name
         | None => UserInDB.full_name stored
         end)
        (UserInDB.disabled stored) (UserInDB.hashed_password stored) in
    exists s',
      update_user_info (UserUpdate.mk (Some address) full_name) current_user s
      = (inr written, s', [])
      /\ db s' !! UserInDB.username current_user = Some stored
      /\ db s' !! address = Some written
      /\ (forall other, other <> address -> db s' !! other = db s !! other)
      /\ chatHistory s' = chatHistory s.
Proof.
  intros address full_name current_user stored s Hlook Hne written.
  rewrite update_user_info_run.
  unfold UserDAO.update_user, UserDAO.get_user. simpl. rewrite Hlook.
  assert (Hw : (match full_name with
                | Some f =>
                    UserInDB.set_full_name (Some f)
                      (UserInDB.set_username address stored)
                | None => UserInDB.set_username address stored
                end) = written)
    by (subst written; destruct full_name; reflexivity).
  rewrite Hw.
  replace (UserInDB.username written) with address by reflexivity.
  eexists. split; [reflexivity |]. simpl.
  split; [by rewrite lookup_insert_ne |].
  split; [apply lookup_insert_eq |].
  split; [| reflexivity].
  intros other Hother. by apply lookup_insert_ne.
Qed.

(** The address of the update is the username of a second account, whose
    record is replaced. *)
Lemma update_user_info_with_email_witness :
  let root :=
    UserInDB.mk "root" (Some "root@163.com") (Some "Administrator")
      (Some false)
      "$2b$12$jiHSlVYQc72WrfBlB2/vX.70MMYdWpKCkdsKoEajvwMv5x9sHzwdq" in
  exists s',
    update_user_info (UserUpdate.mk (Some "bob") None) root
      (mkState users_with_disabled_bob ∅ 0)
    = (inr (UserInDB.set_username "bob" root), s', [])
    /\ db s' !! "bob" = Some (UserInDB.set_username "bob" root).
Proof.
  intros root.
  destruct (update_user_info_with_email "bob" None root root
              (mkState users_with_disabled_bob ∅ 0) eq_refl
              ltac:(discriminate))
    as (s' & Hrun & _ & Hwritten & _).
  exists s'. split; [exact Hrun | exact Hwritten].
Defined.

(** X4. The writing endpoints of the user table, called for a user who is
    not stored: [update_user] and [delete_user] dereference the [None]
    that [get_user] returned, so both endpoints raise an
    [AttributeError] on [NoneType] and leave the state as it was. *)
Theorem user_writes_need_stored_user :
  forall (clock : nat -> time) (user_update : UserUpdate.t)
         (current_user : UserInDB.t) (s : state),
    db s !! UserInDB.username current_user = None ->
    UserDAO.get_user (db s) (UserInDB.username current_user) = None
    /\ delete_user_account clock current_user s
       = (inl (AttributeError "NoneType" "disabled"), s, [])
    /\ exists attr,
        update_user_info user_update current_user s
        = (inl (AttributeError "NoneType" attr), s, []).
Proof.
  intros clock user_update current_user s Hnone.
  split; [exact Hnone |]. split.
  - unfold delete_user_account, bind, get_db, UserDAO.delete_user,
      UserDAO.get_user. simpl. by rewrite Hnone.
  - rewrite update_user_info_run.
    unfold UserDAO.update_user, UserDAO.get_user. simpl. rewrite Hnone.
    destruct (UserUpdate.email user_update), (UserUpdate.full_name user_update);
      eexists; reflexivity.
Qed.

Lemma user_writes_need_stored_user_witness :
  let ghost := UserInDB.mk "ghost" None None (Some false) "$2b$12$digest" in
  delete_user_account (fun n => Z.of_nat n) ghost (mkState fake_users_db ∅ 0)
  = (inl (AttributeError "NoneType" "disabled"), mkState fake_users_db ∅ 0, []).
Proof.
  intros ghost.
  apply (user_writes_need_stored_user (fun n => Z.of_nat n)
           (UserUpdate.mk None None) ghost (mkState fake_users_db ∅ 0)
           eq_refl).
Defined.

Lemma sign_up_run `{PwdLib} (user : UserSignUp.t) (salt : string) (s : state) :
  sign_up user salt s =
    match db s !! UserSignUp.username user with
    | Some _ => (inl (HTTPException 400 "用户名已存在"), s, [])
    | None =>
        (inr (User.mk (UserSignUp.username user) (UserSignUp.email user)
                (UserSignUp.full_name user) (Some false)),
         mkState
           (<[UserSignUp.username user :=
                UserInDB.mk (UserSignUp.username user) (UserSignUp.email user)
                  (UserSignUp.full_name user) (Some false)
                  (get_password_hash salt (UserSignUp.password user))]> (db s))
           (chatHistory s) (ticks s),
         [])
    end.
Proof.
  unfold sign_up, bind, get_db, UserDAO.get_user. simpl.
  destruct (db s !! UserSignUp.username user); reflexivity.
Qed.

Lemma delete_user_account_run clock current_user s :
  delete_user_account clock current_user s =
    match UserDAO.delete_user (db s) (UserInDB.username current_user) with
    | inl e => (inl e, s, [])
    | inr (_, users') =>
        (inr (UserInDB.username current_user, clock (ticks s)),
         mkState users' (chatHistory s) (S (ticks s)), [])
    end.
Proof.
  unfold delete_user_account, bind, get_db. simpl.
  destruct (UserDAO.delete_user _ _) as [e | [deleted users']]; reflexivity.
Qed.

(** X5. Every record of the user table is stored under its own username.
    This holds for the initial table, and [save_user], [update_user] and
    [delete_user] preserve it; so do the endpoints that write the table:
    registration, profile update and account deletion, whether they
    succeed or raise. *)
Theorem user_table_stays_keyed :
  keyed_by_username fake_users_db
  /\ (forall users user,
         keyed_by_username users ->
         keyed_by_username (snd (UserDAO.save_user users user)))
  /\ (forall users user r users',
         keyed_by_username users ->
         UserDAO.update_user users user = inr (r, users') ->
         keyed_by_username users')
  /\ (forall users username r users',
         keyed_by_username users ->
         UserDAO.delete_user users username = inr (r, users') ->
         keyed_by_username users')
  /\ (forall (pwd : PwdLib) user salt s r s' tr,
         keyed_by_username (db s) ->
         sign_up user salt s = (r, s', tr) ->
         keyed_by_username (db s'))
  /\ (forall user_update current_user s r s' tr,
         keyed_by_username (db s) ->
         update_user_info user_update current_user s = (r, s', tr) ->
         keyed_by_username (db s'))
  /\ (forall clock current_user s r s' tr,
         keyed_by_username (db s) ->
         delete_user_account clock current_user s = (r, s', tr) ->
         keyed_by_username (db s')).
Proof.
  split; [apply fake_users_db_keyed |].
  split; [apply save_user_keyed |].
  split; [intros; by eapply update_user_keyed |].
  split; [intros; by eapply delete_user_keyed |].
  split; [| split].
  - intros pwd user salt s r s' tr Hk. rewrite sign_up_run.
    destruct (db s !! UserSignUp.username user); intros [= _ <- _];
      [exact Hk |].
    simpl. intros key u. rewrite lookup_insert.
    case_decide; [intros [= <-]; done | apply Hk].
  - intros user_update current_user s r s' tr Hk.
    rewrite update_user_info_run.
    destruct (UserDAO.update_user _ _) as [e | [updated users']] eqn:Hup;
      intros [= _ <- _]; [exact Hk |].
    simpl. by eapply update_user_keyed.
  - intros clock current_user s r s' tr Hk.
    rewrite delete_user_account_run.
    destruct (UserDAO.delete_user _ _) as [e | [deleted users']] eqn:Hdel;
      intros [= _ <- _]; [exact Hk |].
    simpl. by eapply delete_user_keyed.
Qed.

(* ===================================================================== *)
(** * Further properties of registration, login and the guard             *)
(* ===================================================================== *)

Lemma protected_run `{JwtLib} (clock : nat -> time) (key alg : string)
    {A : Type} (endpoint : UserInDB.t -> M A) (tok : token) (s : state) :
  protected clock key alg endpoint tok s =
    if negb (jwt_verifies tok key [alg])
    then (inl credentials_exception, s, [])
    else
      match decode_token key alg tok (clock (ticks s)) with
      | inl _ => (inl credentials_exception, tick s, [])
      | inr payload =>
          match payload !! "sub" with
          | Some (JStr username) =>
              match db s !! username with
              | None => (inl credentials_exception, tick s, [])
              | Some user =>
                  if truthy_flag (UserInDB.disabled user)
                  then (inl (HTTPException 400 "无效用户"), tick s, [])
                  else endpoint user (tick s)
              end
          | _ => (inl credentials_exception, tick s, [])
          end
      end.
Proof.
  unfold protected, get_current_user. simpl.
  destruct (jwt_verifies tok key [alg]); simpl; [| reflexivity].
  unfold bind, now. simpl.
  destruct (decode_token key alg tok (clock (ticks s))) as [e | payload];
    [reflexivity |].
  destruct (payload !! "sub") as [[username | n] |]; try reflexivity.
  unfold bind, get_db, UserDAO.get_user. simpl.
  destruct (db s !! username) as [user |]; [| reflexivity].
  unfold ret, get_current_active_user. simpl.
  destruct (truthy_flag (UserInDB.disabled user)); [reflexivity |].
  unfold tick, ret. simpl. by destruct (endpoint user _) as [[r s'] tr].
Qed.

(** The guard for a token that passes the first checks. *)
Lemma protected_verified `{JwtLib} (clock : nat -> time) (key alg : string)
    {A : Type} (endpoint : UserInDB.t -> M A) (tok : token) (s : state) :
  jwt_verifies tok key [alg] = true ->
  protected clock key alg endpoint tok s =
    match decode_token key alg tok (clock (ticks s)) with
    | inl _ => (inl credentials_exception, tick s, [])
    | inr payload =>
        match payload !! "sub" with
        | Some (JStr username) =>
            match db s !! username with
            | None => (inl credentials_exception, tick s, [])
            | Some user =>
                if truthy_flag (UserInDB.disabled user)
                then (inl (HTTPException 400 "无效用户"), tick s, [])
                else endpoint user (tick s)
            end
        | _ => (inl credentials_exception, tick s, [])
        end
    end.
Proof. intros Hv. rewrite protected_run, Hv. reflexivity. Qed.

Lemma login_run `{JwtLib} `{PwdLib} (clock : nat -> time) (key alg : string)
    (login_data : LoginRequest.t) (s : state) :
  login_for_access_token clock key alg login_data s =
    match db s !! LoginRequest.username login_data with
    | None => (inl (HTTPException 401 "用户名或密码错误"), s, [])
    | Some user =>
        if verify_password (LoginRequest.password login_data)
             (UserInDB.hashed_password user)
        then
          (inr (Token.mk "登录成功"
                  (create_access_token key alg
                     {["sub" := JStr (UserInDB.username user)]}
                     (clock (ticks s)))
                  "bearer" (UserInDB.username user)),
           tick s, [])
        else (inl (HTTPException 401 "用户名或密码错误"), s, [])
    end.
Proof.
  unfold login_for_access_token, authenticate_user, bind, get_db,
    UserDAO.get_user. simpl.
  destruct (db s !! LoginRequest.username login_data) as [user |];
    [| reflexivity].
  destruct (verify_password _ _); reflexivity.
Qed.

(** X6. Registration under a username that is already in the table, be it
    an active or a soft-deleted account, fails with
    [HTTPException(400, "用户名已存在")] and leaves the state as it was:
    the stored record is not overwritten. *)
Theorem sign_up_taken :
  forall `{PwdLib} (user : UserSignUp.t) (salt : string) (s : state)
         (existing : UserInDB.t),
    db s !! UserSignUp.username user = Some existing ->
    sign_up user salt s = (inl (HTTPException 400 "用户名已存在"), s, []).
Proof.
  intros pwd user salt s existing Hlook.
  rewrite sign_up_run. by rewrite Hlook.
Qed.

Lemma sign_up_taken_witness :
  @sign_up plain_pwd (UserSignUp.mk "bob" "hunter2" None None) "salt"
    (mkState users_with_disabled_bob ∅ 0)
  = (inl (HTTPException 400 "用户名已存在"),
     mkState users_with_disabled_bob ∅ 0, []).
Proof.
  apply (@sign_up_taken plain_pwd (UserSignUp.mk "bob" "hunter2" None None)
           "salt" (mkState users_with_disabled_bob ∅ 0)
           (UserInDB.mk "bob" None (Some "Bob") (Some true) "$2b$12$digest")).
  reflexivity.
Defined.

(** X7. Registration under a free username followed by a login with the
    same credentials: the registration stores an enabled record with the
    digest of the password and returns the public fields; the login then
    succeeds and issues a bearer token for that username. The token's
    expiry is the time of the login plus thirty minutes, in whole
    seconds; until that second is reached the token decodes to a payload
    whose subject is the username, and the guard of a protected endpoint
    resolves it to the stored record. *)
Theorem sign_up_then_login :
  forall `{JwtLib} `{PwdLib} (clock : nat -> time) (key alg : string)
         (user : UserSignUp.t) (salt : string) (s : state),
    db s !! UserSignUp.username user = None ->
    let username := UserSignUp.username user in
    let record :=
      UserInDB.mk username (UserSignUp.email user) (UserSignUp.full_name user)
        (Some false) (get_password_hash salt (UserSignUp.password user)) in
    let s1 := mkState (<[username := record]> (db s)) (chatHistory s) (ticks s) in
    let T := clock (ticks s) in
    let tok := create_access_token key alg {["sub" := JStr username]} T in
    let exp := seconds_of (T + 30 * 60 * 1000000) in
    sign_up user salt s
    = (inr (User.mk username (UserSignUp.email user) (UserSignUp.full_name user)
              (Some false)), s1, [])
    /\ login_for_access_token clock key alg
         (LoginRequest.mk username (UserSignUp.password user)) s1
       = (inr (Token.mk "登录成功" tok "bearer" username), tick s1, [])
    /\ T + 30 * 60 * 1000000 - 1000000 < exp * 1000000 <= T + 30 * 60 * 1000000
    /\ (forall t, t < exp * 1000000 ->
                  exists payload,
                    decode_token key alg tok t = inr payload
                    /\ payload !! "sub" = Some (JStr username))
    /\ (forall s2, db s2 = db s1 -> clock (ticks s2) < exp * 1000000 ->
                   protected clock key alg get_user_info tok s2
                   = (inr record, tick s2, [])).
Proof.
  intros jwt pwd clock key alg user salt s Hfree username record s1 T tok exp.
  assert (Hdec : forall t, t < exp * 1000000 ->
                 decode_token key alg tok t
                 = inr (<["exp" := JInt exp]> {["sub" := JStr username]})).
  { intros t Ht. unfold tok. rewrite decode_token_issued. fold exp.
    destruct (Z.leb_spec (exp * 1000000) t); [lia | reflexivity]. }
  assert (Hsub : (<["exp" := JInt exp]>
                    ({["sub" := JStr username]} : gmap string jwt_value))
                 !! "sub" = Some (JStr username))
    by (by rewrite lookup_insert_ne, lookup_singleton_eq).
  split; [rewrite sign_up_run; by rewrite Hfree |].
  split.
  - rewrite login_run. simpl. rewrite lookup_insert_eq. simpl.
    by rewrite verify_password_hash.
  - split; [| split].
    + pose proof (seconds_of_bounds (T + 30 * 60 * 1000000)) as Hb.
      fold exp in Hb. lia.
    + intros t Ht. eexists. split; [by apply Hdec | exact Hsub].
    + intros s2 Hdb Ht.
      rewrite protected_verified by apply issued_token_verifies.
      rewrite (Hdec _ Ht), Hsub, Hdb.
      simpl. rewrite lookup_insert_eq. reflexivity.
Qed.

Lemma sign_up_then_login_witness :
  let alice := UserSignUp.mk "alice" "hunter2" None (Some "Alice") in
  let record :=
    UserInDB.mk "alice" None (Some "Alice") (Some false) "salt$hunter2" in
  @login_for_access_token plain_jwt plain_pwd (fun _ => 1000) "s3cret" "HS256"
    (LoginRequest.mk "alice" "hunter2")
    (mkState (<["alice" := record]> fake_users_db) ∅ 0)
  = (inr (Token.mk "登录成功"
            (@create_access_token plain_jwt "s3cret" "HS256"
               {["sub" := JStr "alice"]} 1000)
            "bearer" "alice"),
     mkState (<["alice" := record]> fake_users_db) ∅ 1, []).
Proof.
  intros alice record.
  destruct (@sign_up_then_login plain_jwt plain_pwd (fun _ => 1000)
              "s3cret" "HS256" alice "salt" (mkState fake_users_db ∅ 0)
              eq_refl)
    as (_ & Hlogin & _).
  exact Hlogin.
Defined.

(** X8. Login fails closed: when the username is not in the table, or the
    password does not verify against the stored digest, the answer is
    [HTTPException(401, "用户名或密码错误")] in both cases, no token is
    built, the clock is not read and the state is unchanged. *)
Theorem login_fails_closed :
  forall `{JwtLib} `{PwdLib} (clock : nat -> time) (key alg : string)
         (login_data : LoginRequest.t) (s : state),
    (forall user,
        db s !! LoginRequest.username login_data = Some user ->
        verify_password (LoginRequest.password login_data)
          (UserInDB.hashed_password user) = false) ->
    authenticate_user (LoginRequest.username login_data)
      (LoginRequest.password login_data) s = (inr None, s, [])
    /\ login_for_access_token clock key alg login_data s
       = (inl (HTTPException 401 "用户名或密码错误"), s, []).
Proof.
  intros jwt pwd clock key alg login_data s Hbad. split.
  - unfold authenticate_user, bind, get_db, UserDAO.get_user. simpl.
    destruct (db s !! LoginRequest.username login_data) as [user |] eqn:Hl;
      [| reflexivity].
    by rewrite (Hbad user eq_refl).
  - rewrite login_run.
    destruct (db s !! LoginRequest.username login_data) as [user |] eqn:Hl;
      [| reflexivity].
    by rewrite (Hbad user eq_refl).
Qed.

(** A wrong password for the disabled account of the example table. *)
Lemma login_fails_closed_witness :
  @login_for_access_token plain_jwt plain_pwd (fun _ => 1000) "s3cret" "HS256"
    (LoginRequest.mk "bob" "guess") (mkState users_with_disabled_bob ∅ 0)
  = (inl (HTTPException 401 "用户名或密码错误"),
     mkState users_with_disabled_bob ∅ 0, []).
Proof.
  apply (@login_fails_closed plain_jwt plain_pwd (fun _ => 1000)
           "s3cret" "HS256" (LoginRequest.mk "bob" "guess")
           (mkState users_with_disabled_bob ∅ 0)).
  intros user Hlook. vm_compute in Hlook.
  injection Hlook as <-. reflexivity.
Defined.

(** X9. Login does not look at the [disabled] flag: every stored user
    whose password verifies gets a token, a disabled one included. For a
    disabled user the token is of no use: until its expiry, which is the
    time of the login plus thirty minutes in whole seconds, the guard
    answers every protected endpoint with [HTTPException(400)]. *)
Theorem login_ignores_disabled :
  forall `{JwtLib} `{PwdLib} (clock : nat -> time) (key alg : string)
         (login_data : LoginRequest.t) (user : UserInDB.t) (s : state),
    keyed_by_username (db s) ->
    db s !! LoginRequest.username login_data = Some user ->
    verify_password (LoginRequest.password login_data)
      (UserInDB.hashed_password user) = true ->
    let username := LoginRequest.username login_data in
    let T := clock (ticks s) in
    let tok := create_access_token key alg {["sub" := JStr username]} T in
    login_for_access_token clock key alg login_data s
    = (inr (Token.mk "登录成功" tok "bearer" username), tick s, [])
    /\ (UserInDB.disabled user = Some true ->
        forall (A : Type) (endpoint : UserInDB.t -> M A) (s2 : state),
          db s2 = db s ->
          clock (ticks s2) < seconds_of (T + 30 * 60 * 1000000) * 1000000 ->
          protected clock key alg endpoint tok s2
          = (inl (HTTPException 400 "无效用户"), tick s2, [])).
Proof.
  intros jwt pwd clock key alg login_data user s Hk Hlook Hverify
    username T tok.
  pose proof (Hk _ _ Hlook) as Hname. split.
  - rewrite login_run. fold username in Hlook |- *.
    rewrite Hlook, Hverify, Hname. reflexivity.
  - intros Hdis A endpoint s2 Hdb Ht.
    unfold tok. rewrite protected_verified by apply issued_token_verifies.
    rewrite decode_token_issued.
    destruct (Z.leb_spec (seconds_of (T + 30 * 60 * 1000000) * 1000000)
                (clock (ticks s2))); [lia |].
    rewrite lookup_insert_ne, lookup_singleton_eq by done.
    rewrite Hdb. fold username in Hlook. rewrite Hlook, Hdis. reflexivity.
Qed.

(** The disabled account of the example table, with its password. *)
Lemma login_ignores_disabled_witness :
  let bob := UserInDB.mk "bob" None (Some "Bob") (Some true) "salt$hunter2" in
  let s := mkState (<["bob" := bob]> fake_users_db) ∅ 0 in
  let tok :=
    @create_access_token plain_jwt "s3cret" "HS256" {["sub" := JStr "bob"]}
      1000 in
  @login_for_access_token plain_jwt plain_pwd (fun _ => 1000) "s3cret" "HS256"
    (LoginRequest.mk "bob" "hunter2") s
  = (inr (Token.mk "登录成功" tok "bearer" "bob"), tick s, [])
  /\ @protected plain_jwt (fun _ => 1000) "s3cret" "HS256" _
       get_user_history tok (tick s)
     = (inl (HTTPException 400 "无效用户"), tick (tick s), []).
Proof.
  intros bob s tok.
  assert (Hk : keyed_by_username (db s)).
  { intros key u. unfold s. simpl. rewrite lookup_insert.
    case_decide; [intros [= <-]; done | apply fake_users_db_keyed]. }
  destruct (@login_ignores_disabled plain_jwt plain_pwd (fun _ => 1000)
              "s3cret" "HS256" (LoginRequest.mk "bob" "hunter2") bob s
              Hk eq_refl eq_refl)
    as [Hlogin Hguard].
  split; [exact Hlogin |].
  apply (Hguard eq_refl); [reflexivity | vm_compute; reflexivity].
Defined.

(** X10. What the guard lets through. Either the token decodes, its
    subject is the key of a stored record that is not disabled, and the
    protected endpoint runs on exactly that record, after the one clock
    reading of the decoding; or the request is answered with 401 (token
    refused, subject missing or not a string, unknown subject) or with
    400 (disabled), the endpoint does not run, nothing is emitted and the
    tables are as they were. A rejected request has cost one clock
    reading, or none when the token failed the checks made before its
    claims are validated. *)
Theorem guard_lets_through_stored_active_users :
  forall `{JwtLib} (clock : nat -> time) (key alg : string) (A : Type)
         (endpoint : UserInDB.t -> M A) (tok : token) (s : state),
    (exists payload username user,
        decode_token key alg tok (clock (ticks s)) = inr payload
        /\ payload !! "sub" = Some (JStr username)
        /\ db s !! username = Some user
        /\ truthy_flag (UserInDB.disabled user) = false
        /\ protected clock key alg endpoint tok s = endpoint user (tick s))
    \/ (exists e,
           protected clock key alg endpoint tok s
           = (inl e, if jwt_verifies tok key [alg] then tick s else s, [])
           /\ (e = HTTPException 401 "Token 验证失败"
               \/ e = HTTPException 400 "无效用户")).
Proof.
  intros jwt clock key alg A endpoint tok s.
  rewrite protected_run.
  destruct (jwt_verifies tok key [alg]) eqn:Hv; simpl;
    [| right; eexists; split; [reflexivity | by left]].
  destruct (decode_token key alg tok (clock (ticks s))) as [e | payload];
    [right; eexists; split; [reflexivity | by left] |].
  destruct (payload !! "sub") as [[username | n] |] eqn:Hsub;
    [| right; eexists; split; [reflexivity | by left]
     | right; eexists; split; [reflexivity | by left]].
  destruct (db s !! username) as [user |] eqn:Hlook;
    [| right; eexists; split; [reflexivity | by left]].
  destruct (truthy_flag (UserInDB.disabled user)) eqn:Hdis;
    [right; eexists; split; [reflexivity | by right] |].
  left. by exists payload, username, user.
Qed.

(** X11. A token presented thirty minutes or more after it was issued is
    refused by the guard of every protected endpoint with
    [HTTPException(401)], whatever its subject and whatever the tables
    hold; the endpoint does not run. *)
Theorem expired_token_is_unauthorized :
  forall `{JwtLib} (clock : nat -> time) (key alg : string) (A : Type)
         (endpoint : UserInDB.t -> M A) (data : gmap string jwt_value)
         (T : time) (s : state),
    T + 30 * 60 * 1000000 <= clock (ticks s) ->
    protected clock key alg endpoint (create_access_token key alg data T) s
    = (inl (HTTPException 401 "Token 验证失败"), tick s, []).
Proof.
  intros jwt clock key alg A endpoint data T s Hlate.
  rewrite protected_verified by apply issued_token_verifies.
  rewrite decode_token_issued.
  pose proof (seconds_of_bounds (T + 30 * 60 * 1000000)) as Hb.
  destruct (Z.leb_spec (seconds_of (T + 30 * 60 * 1000000) * 1000000)
              (clock (ticks s))); [reflexivity | lia].
Qed.

Lemma expired_token_is_unauthorized_witness :
  @protected plain_jwt (fun _ => 2800700000) "s3cret" "HS256" _
    get_user_history
    (@create_access_token plain_jwt "s3cret" "HS256"
       {["sub" := JStr "root"]} 1000700000)
    (mkState fake_users_db ∅ 0)
  = (inl (HTTPException 401 "Token 验证失败"),
     tick (mkState fake_users_db ∅ 0), []).
Proof.
  apply (@expired_token_is_unauthorized plain_jwt (fun _ => 2800700000)
           "s3cret" "HS256" _ get_user_history {["sub" := JStr "root"]}
           1000700000 (mkState fake_users_db ∅ 0)).
  simpl. lia.
Defined.

(** X12. Logout revokes nothing. For a token that decodes to the name of
    a stored, enabled user, [POST /user/logout] returns its message with
    the user's name and the time, and changes neither table; the same
    token, as long as it still decodes, passes the guard of the next
    request and resolves to the same record. *)
Theorem logout_keeps_token_valid :
  forall `{JwtLib} (clock : nat -> time) (key alg : string) (tok : token)
         (payload : gmap string jwt_value) (username : string)
         (user : UserInDB.t) (s : state),
    decode_token key alg tok (clock (ticks s)) = inr payload ->
    decode_token key alg tok (clock (S (S (ticks s)))) = inr payload ->
    payload !! "sub" = Some (JStr username) ->
    db s !! username = Some user ->
    truthy_flag (UserInDB.disabled user) = false ->
    let s1 := tick (tick s) in
    protected clock key alg (logout clock) tok s
    = (inr ("退出登录成功", UserInDB.username user, clock (S (ticks s))),
       s1, [])
    /\ db s1 = db s
    /\ chatHistory s1 = chatHistory s
    /\ protected clock key alg get_user_info tok s1 = (inr user, tick s1, []).
Proof.
  intros jwt clock key alg tok payload username user s
    Hdec Hdec' Hsub Hlook Hactive s1.
  split; [| split; [reflexivity | split; [reflexivity |]]].
  - rewrite protected_verified by (by eapply decode_token_verifies).
    rewrite Hdec, Hsub, Hlook, Hactive. reflexivity.
  - rewrite protected_verified by (by eapply decode_token_verifies).
    simpl. rewrite Hdec', Hsub, Hlook, Hactive. reflexivity.
Qed.

Lemma logout_keeps_token_valid_witness :
  let root :=
    UserInDB.mk "root" (Some "root@163.com") (Some "Administrator")
      (Some false)
      "$2b$12$jiHSlVYQc72WrfBlB2/vX.70MMYdWpKCkdsKoEajvwMv5x9sHzwdq" in
  let tok :=
    @create_access_token plain_jwt "s3cret" "HS256"
      {["sub" := JStr "root"]} 1000 in
  let s := mkState fake_users_db ∅ 0 in
  @protected plain_jwt (fun n => 1000 + Z.of_nat n) "s3cret" "HS256" _
    (logout (fun n => 1000 + Z.of_nat n)) tok s
  = (inr ("退出登录成功", "root", 1001), tick (tick s), [])
  /\ @protected plain_jwt (fun n => 1000 + Z.of_nat n) "s3cret" "HS256" _
       get_user_info tok (tick (tick s))
     = (inr root, tick (tick (tick s)), []).
Proof.
  intros root tok s.
  pose (payload := <["exp" := JInt 1800]> {["sub" := JStr "root"]}
                   : gmap string jwt_value).
  assert (Hdec : forall now, now < 1800000000 ->
                   @decode_token plain_jwt "s3cret" "HS256" tok now
                   = inr payload).
  { intros now Hnow. unfold tok. rewrite (@decode_token_issued plain_jwt).
    change (seconds_of (1000 + 30 * 60 * 1000000)) with 1800.
    destruct (Z.leb_spec (1800 * 1000000) now); [lia | reflexivity]. }
  destruct (@logout_keeps_token_valid plain_jwt (fun n => 1000 + Z.of_nat n)
              "s3cret" "HS256" tok payload "root" root s
              (Hdec 1000 ltac:(lia)) (Hdec 1002 ltac:(lia))
              eq_refl eq_refl eq_refl)
    as (Hlogout & _ & _ & Hnext).
  split; [exact Hlogout | exact Hnext].
Defined.

(** X13. A deleted account locks itself out and keeps its name. After a
    successful [DELETE /user/del], the caller's token, though still
    decodable, is answered with [HTTPException(400)] by the guard of
    every protected endpoint, and a registration under the deleted
    username fails with [HTTPException(400, "用户名已存在")]. *)
Theorem deleted_account_is_locked_out :
  forall `{JwtLib} (clock : nat -> time) (key alg : string) (tok : token)
         (payload : gmap string jwt_value) (username : string)
         (user : UserInDB.t) (s : state),
    keyed_by_username (db s) ->
    decode_token key alg tok (clock (ticks s)) = inr payload ->
    decode_token key alg tok (clock (S (S (ticks s)))) = inr payload ->
    payload !! "sub" = Some (JStr username) ->
    db s !! username = Some user ->
    truthy_flag (UserInDB.disabled user) = false ->
    exists s1,
      protected clock key alg (delete_user_account clock) tok s
      = (inr (username, clock (S (ticks s))), s1, [])
      /\ (forall (A : Type) (endpoint : UserInDB.t -> M A),
             protected clock key alg endpoint tok s1
             = (inl (HTTPException 400 "无效用户"), tick s1, []))
      /\ (forall (pwd : PwdLib) (signup : UserSignUp.t) (salt : string),
             UserSignUp.username signup = username ->
             sign_up signup salt s1
             = (inl (HTTPException 400 "用户名已存在"), s1, [])).
Proof.
  intros jwt clock key alg tok payload username user s
    Hk Hdec Hdec' Hsub Hlook Hactive.
  pose proof (Hk _ _ Hlook) as Hname.
  eexists. split.
  { rewrite protected_verified by (by eapply decode_token_verifies).
    rewrite Hdec, Hsub, Hlook, Hactive.
    rewrite delete_user_account_run.
    unfold UserDAO.delete_user, UserDAO.get_user. simpl.
    rewrite Hname, Hlook. simpl. rewrite Hname. reflexivity. }
  split.
  - intros A endpoint.
    rewrite protected_verified by (by eapply decode_token_verifies). simpl.
    rewrite Hdec', Hsub, lookup_insert_eq. reflexivity.
  - intros pwd signup salt Hsame. rewrite sign_up_run. simpl.
    by rewrite Hsame, lookup_insert_eq.
Qed.

Lemma deleted_account_is_locked_out_witness :
  let tok :=
    @create_access_token plain_jwt "s3cret" "HS256"
      {["sub" := JStr "root"]} 1000 in
  exists s1,
    @protected plain_jwt (fun n => 1000 + Z.of_nat n) "s3cret" "HS256" _
      (delete_user_account (fun n => 1000 + Z.of_nat n)) tok
      (mkState fake_users_db ∅ 0)
    = (inr ("root", 1001), s1, [])
    /\ @protected plain_jwt (fun n => 1000 + Z.of_nat n) "s3cret" "HS256" _
         get_user_info tok s1
       = (inl (HTTPException 400 "无效用户"), tick s1, []).
Proof.
  intros tok.
  pose (payload := <["exp" := JInt 1800]> {["sub" := JStr "root"]}
                   : gmap string jwt_value).
  assert (Hdec : forall now, now < 1800000000 ->
                   @decode_token plain_jwt "s3cret" "HS256" tok now
                   = inr payload).
  { intros now Hnow. unfold tok. rewrite (@decode_token_issued plain_jwt).
    change (seconds_of (1000 + 30 * 60 * 1000000)) with 1800.
    destruct (Z.leb_spec (1800 * 1000000) now); [lia | reflexivity]. }
  destruct (@deleted_account_is_locked_out plain_jwt
              (fun n => 1000 + Z.of_nat n) "s3cret" "HS256" tok payload
              "root"
              (UserInDB.mk "root" (Some "root@163.com") (Some "Administrator")
                 (Some false)
                 "$2b$12$jiHSlVYQc72WrfBlB2/vX.70MMYdWpKCkdsKoEajvwMv5x9sHzwdq")
              (mkState fake_users_db ∅ 0)
              fake_users_db_keyed
              (Hdec 1000 ltac:(lia)) (Hdec 1002 ltac:(lia))
              eq_refl eq_refl eq_refl)
    as (s1 & Hdel & Hguard & _).
  exists s1. split; [exact Hdel | apply Hguard].
Defined.

(* ===================================================================== *)
(** * Further properties of the chat endpoints                            *)
(* ===================================================================== *)

(** X14. A chat request with an empty list of messages fails with
    [HTTPException(500)] whose detail wraps the [IndexError] of
    [request.messages[-1]], whatever the other fields of the request are.
    Nothing is appended, the provider is not called and the clock is not
    read; but the caller's log has been created by then, so a user
    without a log is left with an empty one. *)
Theorem chat_without_messages :
  forall (clock : nat -> time) (request : ChatRequest.t) (up : Upstream.t)
         (current_user : UserInDB.t) (s : state),
    ChatRequest.messages request = [] ->
    let username := UserInDB.username current_user in
    let s' :=
      mkState (db s)
        (<[username := default [] (chatHistory s !! username)]> (chatHistory s))
        (ticks s) in
    post_chat clock request up current_user s
    = (inl (HTTPException 500
              ("处理聊天请求时发生错误: " +:+ "list index out of range")),
       s', [])
    /\ chatHistory s' !! username = Some (default [] (chatHistory s !! username))
    /\ get_user_history current_user s'
       = (inr (default [] (chatHistory s !! username)), s', []).
Proof.
  intros clock request up current_user s Hempty username s'.
  split; [| split].
  - unfold post_chat, chat, except_http, try_except. fold username.
    unfold bind at 1. unfold bind at 1. unfold bind at 1.
    rewrite init_history_spec. simpl.
    unfold bind at 1. rewrite Hempty. reflexivity.
  - apply lookup_insert_eq.
  - rewrite get_user_history_spec. fold username. simpl.
    by rewrite lookup_insert_eq.
Qed.

Lemma chat_without_messages_witness :
  let root :=
    UserInDB.mk "root" (Some "root@163.com") (Some "Administrator")
      (Some false) "$2b$12$digest" in
  let up := Upstream.mk (StreamRaises "unused") (CompletionRaises "unused") in
  post_chat (fun n => Z.of_nat n) (ChatRequest.defaults []) up root
    (mkState fake_users_db ∅ 0)
  = (inl (HTTPException 500
            "处理聊天请求时发生错误: list index out of range"),
     mkState fake_users_db {["root" := []]} 0, []).
Proof.
  intros root up.
  destruct (chat_without_messages (fun n => Z.of_nat n)
              (ChatRequest.defaults []) up root (mkState fake_users_db ∅ 0)
              eq_refl)
    as (Hrun & _).
  exact Hrun.
Defined.

(** X15. A non-streaming chat request that the provider answers with at
    least one choice returns the content of the first choice (the empty
    string when that choice has no content) as an assistant message,
    together with the provider's model name and usage. The question and
    that answer are appended to the caller's log, in this order, and
    [GET /history] returns the old log followed by the two. *)
Theorem chat_single_answer :
  forall (clock : nat -> time) (request : ChatRequest.t) (up : Upstream.t)
         (current_user : UserInDB.t) (last_message : ChatMessage.t)
         (m : string) (response : Completion.t) (choice : option string)
         (others : list (option string)) (s : state),
    last (ChatRequest.messages request) = Some last_message ->
    ChatRequest.model request = Some m ->
    truthy m = true ->
    truthy_flag (ChatRequest.stream request) = false ->
    Upstream.single up = Completed response ->
    Completion.choices response = Some (choice :: others) ->
    let username := UserInDB.username current_user in
    let old := default [] (chatHistory s !! username) in
    let question :=
      ChatMessage.mk (ChatMessage.role last_message)
        (ChatMessage.content last_message) (Some (clock (ticks s))) in
    let answer :=
      ChatMessage.mk "assistant" (default "" choice)
        (Some (clock (S (ticks s)))) in
    exists s',
      post_chat clock request up current_user s
      = (inr (Some (ChatResponse.mk answer (Completion.model response)
                      (Completion.usage response))),
         s',
         [Persist username question; Call (api_call request m false);
          Persist username answer])
      /\ get_user_history current_user s'
         = (inr (old ++ [question; answer]), s', []).
Proof.
  intros clock request up current_user last_message m response choice others
    s Hlast Hm Ht Hstream Hup Hchoices username old question answer.
  unfold post_chat, bind.
  rewrite (chat_single _ _ _ _ last_message) by assumption.
  rewrite (model_name_given _ _ Hm Ht), Hup, Hchoices, content_or_empty.
  fold username old question answer. simpl.
  eexists. split; [reflexivity |].
  rewrite get_user_history_spec. fold username. simpl.
  by rewrite lookup_insert_eq.
Qed.

(** A provider whose first choice has no content: an empty answer is
    stored. *)
Lemma chat_single_answer_witness :
  let root :=
    UserInDB.mk "root" (Some "root@163.com") (Some "Administrator")
      (Some false) "$2b$12$digest" in
  let question := ChatMessage.mk "user" "Hello" None in
  let request := ChatRequest.defaults [question] in
  let up :=
    Upstream.mk (StreamRaises "unused")
      (Completed (Completion.mk (Some [None; Some "second"]) "qwen3-max"
                    (Some [("total_tokens", 7)]))) in
  exists s',
    post_chat (fun n => Z.of_nat n) request up root (mkState fake_users_db ∅ 0)
    = (inr (Some (ChatResponse.mk (ChatMessage.mk "assistant" "" (Some 1))
                    "qwen3-max" (Some [("total_tokens", 7)]))),
       s',
       [Persist "root" (ChatMessage.mk "user" "Hello" (Some 0));
        Call (api_call request "qwen3-max" false);
        Persist "root" (ChatMessage.mk "assistant" "" (Some 1))])
    /\ get_user_history root s'
       = (inr [ChatMessage.mk "user" "Hello" (Some 0);
               ChatMessage.mk "assistant" "" (Some 1)], s', []).
Proof.
  intros root question request up.
  destruct (chat_single_answer (fun n => Z.of_nat n) request up root question
              "qwen3-max"
              (Completion.mk (Some [None; Some "second"]) "qwen3-max"
                 (Some [("total_tokens", 7)]))
              None [Some "second"] (mkState fake_users_db ∅ 0)
              eq_refl eq_refl eq_refl eq_refl eq_refl eq_refl)
    as (s' & Hrun & Hread).
  exists s'. split; [exact Hrun | exact Hread].
Defined.

(** X16. A non-streaming chat request whose upstream call raises fails
    with [HTTPException(500)] whose detail is the fixed prefix followed
    by the provider's message. By then the question has been appended:
    the caller's log ends with a question that has no answer. *)
Theorem chat_upstream_error_keeps_question :
  forall (clock : nat -> time) (request : ChatRequest.t) (up : Upstream.t)
         (current_user : UserInDB.t) (last_message : ChatMessage.t)
         (m message : string) (s : state),
    last (ChatRequest.messages request) = Some last_message ->
    ChatRequest.model request = Some m ->
    truthy m = true ->
    truthy_flag (ChatRequest.stream request) = false ->
    Upstream.single up = CompletionRaises message ->
    let username := UserInDB.username current_user in
    let old := default [] (chatHistory s !! username) in
    let question :=
      ChatMessage.mk (ChatMessage.role last_message)
        (ChatMessage.content last_message) (Some (clock (ticks s))) in
    exists s',
      post_chat clock request up current_user s
      = (inl (HTTPException 500
                ("处理聊天请求时发生错误: " +:+ message)),
         s',
         [Persist username question; Call (api_call request m false)])
      /\ get_user_history current_user s' = (inr (old ++ [question]), s', []).
Proof.
  intros clock request up current_user last_message m message s
    Hlast Hm Ht Hstream Hup username old question.
  unfold post_chat, bind.
  rewrite (chat_single _ _ _ _ last_message) by assumption.
  rewrite (model_name_given _ _ Hm Ht), Hup.
  fold username old question.
  eexists. split; [reflexivity |].
  rewrite get_user_history_spec. fold username. simpl.
  by rewrite lookup_insert_eq.
Qed.

Lemma chat_upstream_error_keeps_question_witness :
  let root :=
    UserInDB.mk "root" (Some "root@163.com") (Some "Administrator")
      (Some false) "$2b$12$digest" in
  let question := ChatMessage.mk "user" "Hello" None in
  let request := ChatRequest.defaults [question] in
  let up :=
    Upstream.mk (StreamRaises "unused") (CompletionRaises "quota exceeded") in
  exists s',
    post_chat (fun n => Z.of_nat n) request up root (mkState fake_users_db ∅ 0)
    = (inl (HTTPException 500
              "处理聊天请求时发生错误: quota exceeded"),
       s',
       [Persist "root" (ChatMessage.mk "user" "Hello" (Some 0));
        Call (api_call request "qwen3-max" false)])
    /\ get_user_history root s'
       = (inr [ChatMessage.mk "user" "Hello" (Some 0)], s', []).
Proof.
  intros root question request up.
  destruct (chat_upstream_error_keeps_question (fun n => Z.of_nat n) request
              up root question "qwen3-max" "quota exceeded"
              (mkState fake_users_db ∅ 0)
              eq_refl eq_refl eq_refl eq_refl eq_refl)
    as (s' & Hrun & Hread).
  exists s'. split; [exact Hrun | exact Hread].
Defined.

(** X17. A chat request whose [model] is null or the empty string never
    reaches the provider: the fallback [config.MODEL_NAME] names an
    attribute the configuration does not have. The question is stored
    all the same. A streaming request then yields a single error event
    with the text of the [AttributeError]; a non-streaming request fails
    with [HTTPException(500)] wrapping that text. *)
Theorem chat_without_model_never_calls :
  forall (clock : nat -> time) (request : ChatRequest.t) (up : Upstream.t)
         (current_user : UserInDB.t) (last_message : ChatMessage.t)
         (s : state),
    last (ChatRequest.messages request) = Some last_message ->
    truthy_opt (ChatRequest.model request) = false ->
    let username := UserInDB.username current_user in
    let old := default [] (chatHistory s !! username) in
    let question :=
      ChatMessage.mk (ChatMessage.role last_message)
        (ChatMessage.content last_message) (Some (clock (ticks s))) in
    let text := "'DashScopeConfig' object has no attribute 'MODEL_NAME'" in
    let logs := <[username := old ++ [question]]> (chatHistory s) in
    post_chat clock request up current_user s
    = if truthy_flag (ChatRequest.stream request)
      then (inr None, mkState (db s) logs (S (S (ticks s))),
            [Persist username question;
             Emit (error_response text true (clock (S (ticks s))))])
      else (inl (HTTPException 500
                   ("处理聊天请求时发生错误: " +:+ text)),
            mkState (db s) logs (S (ticks s)),
            [Persist username question]).
Proof.
  intros clock request up current_user last_message s Hlast Hmodel
    username old question text logs.
  assert (Hname : model_name request = None).
  { unfold model_name. unfold truthy_opt in Hmodel.
    destruct (ChatRequest.model request) as [m |]; [| reflexivity].
    by rewrite Hmodel. }
  unfold post_chat, bind.
  destruct (truthy_flag (ChatRequest.stream request)) eqn:Hstream.
  - rewrite (chat_streaming _ _ _ _ last_message) by assumption.
    fold username old question. unfold send, bind.
    rewrite generate_without_model by exact Hname. reflexivity.
  - rewrite (chat_single _ _ _ _ last_message) by assumption.
    rewrite Hname. reflexivity.
Qed.

Lemma chat_without_model_never_calls_witness :
  let root :=
    UserInDB.mk "root" (Some "root@163.com") (Some "Administrator")
      (Some false) "$2b$12$digest" in
  let question := ChatMessage.mk "user" "Hello" None in
  let request := ChatRequest.mk [question] None None None (Some true) in
  let up :=
    Upstream.mk (Stream [Chunk.mk (Some [Some "Hi"])] None)
      (CompletionRaises "unused") in
  post_chat (fun n => Z.of_nat n) request up root (mkState fake_users_db ∅ 0)
  = (inr None,
     mkState fake_users_db
       {["root" := [ChatMessage.mk "user" "Hello" (Some 0)]]} 2,
     [Persist "root" (ChatMessage.mk "user" "Hello" (Some 0));
      Emit (error_response
              "'DashScopeConfig' object has no attribute 'MODEL_NAME'"
              true 1)]).
Proof.
  intros root question request up.
  pose proof (chat_without_model_never_calls (fun n => Z.of_nat n) request up
                root question (mkState fake_users_db ∅ 0) eq_refl eq_refl)
    as Hrun.
  rewrite Hrun. simpl. by rewrite insert_empty.
Defined.

Lemma relayed_unfinished clock m t contents :
  Forall (fun ev => event_finished ev = false /\ is_error_event ev = false)
    (events (relayed clock m t contents)).
Proof.
  revert t. induction contents as [| c rest IH]; intros t; [constructor |].
  unfold events in *. simpl. constructor; [by split | apply IH].
Qed.

(** X18. The generator never raises: whatever the request, the provider
    and the state, it runs to its end. The events it emits are unfinished
    fragments followed by at most one event with [finished: true], which
    is the last one, and that closing event is missing only when nothing
    at all was emitted. The user table and the logs of all other users
    are left as they were. *)
Theorem generator_always_terminates_cleanly :
  forall (clock : nat -> time) (request : ChatRequest.t) (username : string)
         (up : stream_result) (s : state),
    exists s' tr front final,
      generate_stream_response clock request username up s = (inr tt, s', tr)
      /\ events tr = front ++ final
      /\ Forall (fun ev => event_finished ev = false
                           /\ is_error_event ev = false) front
      /\ Forall (fun ev => event_finished ev = true) final
      /\ (length final <= 1)%nat
      /\ (final = [] -> front = [])
      /\ db s' = db s
      /\ forall other, other <> username ->
                       chatHistory s' !! other = chatHistory s !! other.
Proof.
  intros clock request username up s.
  destruct (model_name request) as [m |] eqn:Hm.
  2:{ eexists _, _, [], [_].
      split; [by apply generate_without_model |].
      repeat split; try done. by repeat constructor. }
  destruct up as [message | chunks [message |]].
  - eexists _, _, [], [_].
    split; [by apply (generate_create_raises _ _ _ _ m) |].
    repeat split; try done. by repeat constructor.
  - eexists _, _, (events (relayed clock m (ticks s) (fragments chunks))), [_].
    split; [by apply (generate_stream_fails _ _ _ _ _ m) |].
    rewrite events_cons_call, events_app.
    repeat split; try done; [apply relayed_unfinished | by repeat constructor].
  - destruct (decide (fragments chunks = [])) as [Hnone | Hsome].
    { eexists _, _, [], [].
      split; [by apply (generate_stream_silent _ _ _ _ m) |].
      repeat split; try done. simpl. lia. }
    destruct (chatHistory s !! username) as [history |] eqn:Hlog.
    + eexists _, _,
        (events (relayed clock m (ticks s) (fragments chunks))), [_].
      split; [by apply (generate_stream_completes _ _ _ _ m _ history) |].
      rewrite events_cons_call, events_app.
      repeat split; try done;
        [apply relayed_unfinished | by repeat constructor |].
      intros other Hne. simpl. by rewrite lookup_insert_ne.
    + eexists _, _,
        (events (relayed clock m (ticks s) (fragments chunks))), [_].
      split; [by apply (generate_stream_without_log _ _ _ _ m) |].
      rewrite events_cons_call, events_app.
      repeat split; try done;
        [apply relayed_unfinished | by repeat constructor].
Qed.

(** X19. Chunks without content are invisible. Two upstream streams that
    carry the same content-bearing fragments in the same order and end
    the same way make the generator do exactly the same, however many
    chunks without choices, without content or with empty content are
    interspersed. *)
Theorem stream_skips_empty_chunks :
  forall (clock : nat -> time) (request : ChatRequest.t) (username : string)
         (chunks1 chunks2 : list Chunk.t) (failure : option string)
         (s : state),
    fragments chunks1 = fragments chunks2 ->
    generate_stream_response clock request username (Stream chunks1 failure) s
    = generate_stream_response clock request username (Stream chunks2 failure) s.
Proof.
  intros clock request username chunks1 chunks2 failure s Hsame.
  destruct (model_name request) as [m |] eqn:Hm.
  - unfold generate_stream_response, try_except, bind.
    rewrite model_or_default_spec, Hm. simpl.
    rewrite !(for_chunk_in_stream_spec clock request m) by exact Hm.
    by rewrite Hsame.
  - by rewrite !generate_without_model.
Qed.

Lemma stream_skips_empty_chunks_witness :
  let s := mkState fake_users_db {["root" := []]} 0 in
  let request := ChatRequest.defaults [ChatMessage.mk "user" "Hello" None] in
  generate_stream_response (fun n => Z.of_nat n) request "root"
    (Stream [Chunk.mk (Some [Some ""]); Chunk.mk (Some [Some "Hi"]);
             Chunk.mk None; Chunk.mk (Some [])] None) s
  = generate_stream_response (fun n => Z.of_nat n) request "root"
      (Stream [Chunk.mk (Some [Some "Hi"; Some "ignored"])] None) s.
Proof.
  intros s request.
  apply (stream_skips_empty_chunks (fun n => Z.of_nat n) request "root"
           [Chunk.mk (Some [Some ""]); Chunk.mk (Some [Some "Hi"]);
            Chunk.mk None; Chunk.mk (Some [])]
           [Chunk.mk (Some [Some "Hi"; Some "ignored"])] None s).
  reflexivity.
Defined.

Example repr_plain_name : repr "root" = "'root'".
Proof. reflexivity. Qed.

Example repr_name_with_quote :
  repr "o'brien" = String double_quote ("o'brien" +:+ String double_quote "").
Proof. reflexivity. Qed.

Example repr_name_with_both_quotes :
  repr (String double_quote "o'brien")
  = "'" +:+ String double_quote "o\'brien'".
Proof. reflexivity. Qed.

Example repr_control_characters :
  repr (String (Ascii.ascii_of_nat 9)
          (String backslash (String (Ascii.ascii_of_nat 27) "")))
  = "'\t\\\x1b'".
Proof. reflexivity. Qed.

(** X20. The generator run for a user whose log is missing when the
    stream ends (the log was deleted after the request was accepted):
    every fragment has been relayed, but the lookup of the log raises a
    [KeyError]; the answer is not stored, no log is created, and instead
    of the [finished: true] fragment the client receives one error event
    whose text is the [repr] of the username (for a name of ASCII
    characters; a plain name comes between single quotes). *)
Theorem stream_answer_lost_without_log :
  forall (clock : nat -> time) (request : ChatRequest.t) (username : string)
         (chunks : list Chunk.t) (m : string) (s : state),
    ChatRequest.model request = Some m ->
    truthy m = true ->
    fragments chunks <> [] ->
    chatHistory s !! username = None ->
    only_ascii username = true ->
    let contents := fragments chunks in
    let n := length contents in
    let failed :=
      error_response (repr username) true (clock (S (ticks s + n))) in
    exists s' tr,
      generate_stream_response clock request username (Stream chunks None) s
      = (inr tt, s', tr)
      /\ tr = Call (api_call request m true)
                :: relayed clock m (ticks s) contents ++ [Emit failed]
      /\ omap fragment_of (events tr) = map (fun c => (c, false)) contents
      /\ filter (fun ev => is_error_event ev = true) (events tr) = [failed]
      /\ persisted tr = []
      /\ chatHistory s' = chatHistory s.
Proof.
  intros clock request username chunks m s Hm Ht Hsome Hlog _
    contents n failed.
  eexists _, _. split.
  { apply (generate_stream_without_log _ _ _ _ m); try assumption.
    by apply model_name_given. }
  fold contents n. split; [reflexivity |].
  rewrite events_cons_call, persisted_cons_call, events_app, persisted_app.
  rewrite persisted_relayed, omap_app, filter_app.
  rewrite events_relayed, no_error_in_relayed.
  repeat split. simpl. by rewrite app_nil_r.
Qed.

(** A user whose name holds a single quote: the text of the error event
    is the name between double quotes. *)
Lemma stream_answer_lost_without_log_witness :
  let request := ChatRequest.defaults [ChatMessage.mk "user" "Hello" None] in
  exists s',
    generate_stream_response (fun n => Z.of_nat n) request "o'brien"
      (Stream [Chunk.mk (Some [Some "Hi"])] None) (mkState fake_users_db ∅ 1)
    = (inr tt, s',
       [Call (api_call request "qwen3-max" true);
        Emit (StreamResponse "Hi" false "qwen3-max" 1); Sleep;
        Emit (error_response
                (String double_quote ("o'brien" +:+ String double_quote ""))
                true 3)])
    /\ chatHistory s' = ∅.
Proof.
  intros request.
  destruct (stream_answer_lost_without_log (fun n => Z.of_nat n) request
              "o'brien" [Chunk.mk (Some [Some "Hi"])] "qwen3-max"
              (mkState fake_users_db ∅ 1)
              eq_refl eq_refl ltac:(discriminate) eq_refl eq_refl)
    as (s' & tr & Hrun & Htr & _ & _ & _ & Hlog).
  exists s'. split; [rewrite Hrun, Htr; reflexivity | exact Hlog].
Defined.

(** X21. A whole streaming chat request whose stream ends normally with
    content, from the call of the endpoint to the last event: the
    endpoint returns no body of its own, the question is stored before
    the provider is called, and after the last event [GET /history]
    returns the old log followed by the question and by one assistant
    message that holds the concatenated fragments. *)
Theorem streaming_chat_then_history :
  forall (clock : nat -> time) (request : ChatRequest.t) (up : Upstream.t)
         (current_user : UserInDB.t) (last_message : ChatMessage.t)
         (m : string) (chunks : list Chunk.t) (s : state),
    last (ChatRequest.messages request) = Some last_message ->
    truthy_flag (ChatRequest.stream request) = true ->
    ChatRequest.model request = Some m ->
    truthy m = true ->
    Upstream.streaming up = Stream chunks None ->
    fragments chunks <> [] ->
    let username := UserInDB.username current_user in
    let old := default [] (chatHistory s !! username) in
    let n := length (fragments chunks) in
    let question :=
      ChatMessage.mk (ChatMessage.role last_message)
        (ChatMessage.content last_message) (Some (clock (ticks s))) in
    let answer :=
      ChatMessage.mk "assistant" (join (fragments chunks))
        (Some (clock (S (S (ticks s) + n)))) in
    exists s' rest,
      post_chat clock request up current_user s
      = (inr None, s',
         Persist username question :: Call (api_call request m true) :: rest)
      /\ persisted rest = [answer]
      /\ get_user_history current_user s'
         = (inr (old ++ [question; answer]), s', []).
Proof.
  intros clock request up current_user last_message m chunks s
    Hlast Hstream Hm Ht Hup Hsome username old n question answer.
  destruct (post_chat_streams_answer clock request up current_user
              last_message m chunks s Hlast Hstream
              (model_name_given _ _ Hm Ht) Hup Hsome)
    as (s' & Hrun & Hlog).
  fold username old n question answer in Hrun, Hlog.
  eexists s', _. split; [exact Hrun |]. split.
  - by rewrite persisted_app, persisted_relayed.
  - rewrite get_user_history_spec. fold username. by rewrite Hlog.
Qed.

Lemma streaming_chat_then_history_witness :
  let root :=
    UserInDB.mk "root" (Some "root@163.com") (Some "Administrator")
      (Some false) "$2b$12$digest" in
  let question := ChatMessage.mk "user" "Hello" None in
  let request :=
    ChatRequest.mk [question] (Some "qwen3-max") None None (Some true) in
  let up :=
    Upstream.mk
      (Stream [Chunk.mk (Some [Some "Hi"]); Chunk.mk (Some [Some " there"])]
         None)
      (CompletionRaises "unused") in
  exists s' rest,
    post_chat (fun n => Z.of_nat n) request up root (mkState fake_users_db ∅ 0)
    = (inr None, s',
       Persist "root" (ChatMessage.mk "user" "Hello" (Some 0))
         :: Call (api_call request "qwen3-max" true) :: rest)
    /\ get_user_history root s'
       = (inr [ChatMessage.mk "user" "Hello" (Some 0);
               ChatMessage.mk "assistant" "Hi there" (Some 4)], s', []).
Proof.
  intros root question request up.
  destruct (streaming_chat_then_history (fun n => Z.of_nat n) request up root
              question "qwen3-max"
              [Chunk.mk (Some [Some "Hi"]); Chunk.mk (Some [Some " there"])]
              (mkState fake_users_db ∅ 0)
              eq_refl eq_refl eq_refl eq_refl eq_refl ltac:(discriminate))
    as (s' & rest & Hrun & _ & Hread).
  exists s', rest. split; [exact Hrun | exact Hread].
Defined.

(** X22. The history endpoints touch the caller's log only. Reading the
    history changes nothing at all. Clearing it removes the caller's log
    and leaves the user table and the log of every other user as they
    were; neither endpoint calls the provider or emits anything. *)
Theorem history_endpoints_are_isolated :
  forall (clock : nat -> time) (current_user : UserInDB.t) (s : state),
    let username := UserInDB.username current_user in
    (exists history, get_user_history current_user s = (inr history, s, []))
    /\ exists cleared s',
        clear_user_history clock current_user s = (inr cleared, s', [])
        /\ Cleared.user cleared = username
        /\ chatHistory s' !! username = None
        /\ (forall other, other <> username ->
                          chatHistory s' !! other = chatHistory s !! other)
        /\ db s' = db s.
Proof.
  intros clock current_user s username. split.
  - eexists. apply get_user_history_spec.
  - destruct (clear_user_history_spec clock current_user s) as [msg Hclear].
    eexists _, _. split; [exact Hclear |]. simpl. fold username.
    split; [reflexivity |]. split; [apply lookup_delete_eq |].
    split; [| reflexivity].
    intros other Hne. by apply lookup_delete_ne.
Qed.

(** X23. The two endpoints that read [config.MODEL_NAME] unconditionally
    never answer. [GET /chat/models] raises the [AttributeError] whether
    the provider lists its models or fails, because the fallback of the
    [except] branch reads the same missing attribute; [GET /chat/health]
    raises it after reading the clock. Neither changes the tables. *)
Theorem models_and_health_always_raise :
  forall (clock : nat -> time) (up : models_result)
         (current_user : UserInDB.t) (s : state),
    get_models up current_user s
    = (inl (AttributeError "DashScopeConfig" "MODEL_NAME"), s, [])
    /\ health_check clock s
       = (inl (AttributeError "DashScopeConfig" "MODEL_NAME"), tick s, []).
Proof.
  intros clock up current_user s. split.
  - unfold get_models, try_except, bind. destruct up; reflexivity.
  - reflexivity.
Qed.
